(** * Bitrix24 MySQL API: request handlers over a pooled SQL connection

    A shallow embedding of the Express handlers of [index.js] (the
    single-database service, version 1.0.0) and of its multi-database
    variant (version 2.0.0), together with the JavaScript built-ins they
    rely on: [String.prototype.trim], [toLowerCase], [startsWith],
    [parseInt], the [||] operator and [Object.values].

    Conventions of the embedding.
    - A JavaScript string is a [string]; every [ascii] stands for one
      UTF-16 code unit below 256 (the Latin-1 range), which is where all
      the characters the handlers inspect live.
    - A Number is a [JsNum]: [NaN], an infinity, or [Num z] for the double
      whose value is the integer [z] (the handlers only ever build Numbers
      from [parseInt] and from [Array.prototype.length]).  [parseInt]
      rounds the integer it reads to the nearest double, ties to even, as
      the language prescribes; [Num 0] stands for both zeroes.
    - [pool.query] resolves to [[rows, fields]]; only [rows] is used.  It
      is an array of row objects for a statement that returns a result
      set, and the driver's ResultSetHeader object for one that is answered
      with an OK packet (a [SELECT ... INTO], say).
    - [pool.query] is the one effect.  The database is an abstract state
      machine [exec]; a handler is a computation in a state-and-exception
      monad that threads the database state and records every statement it
      sends together with the outcome it got back.
    - [res.json(obj)] / [res.status(n).json(obj)] is the value a handler
      returns: the status code and the object handed to the serializer. *)

From Stdlib Require Import String Ascii List ZArith Lia Bool DecimalString.
Import ListNotations.

Local Open Scope string_scope.
Local Open Scope Z_scope.

(** ** JavaScript values *)

Set Warnings "-register-all".

Inductive JsNum : Type :=
| NaN
| Num (z : Z)
| Infinity (negative : bool).

Inductive JsVal : Type :=
| VUndef
| VNull
| VBool (b : bool)
| VNum (n : JsNum)
| VStr (s : string)
| VArr (xs : list JsVal)
| VObj (fields : list (string * JsVal)).

(** A result row of the driver: the own enumerable properties of the row
    object, in the order JavaScript enumerates them. *)
Definition Row : Type := list (string * JsVal).

(** [obj.key] on an ordinary object: [undefined] when the key is absent. *)
Fixpoint getField (key : string) (fields : list (string * JsVal)) : JsVal :=
  match fields with
  | [] => VUndef
  | (k, v) :: rest => if String.eqb k key then v else getField key rest
  end.

(** [Object.values(row)] *)
Definition Object_values (row : Row) : list JsVal := map snd row.

(** [arr[0]] *)
Definition index0 (xs : list JsVal) : JsVal :=
  match xs with
  | [] => VUndef
  | x :: _ => x
  end.

(** [arr.length] as a Number *)
Definition length_of {A : Type} (xs : list A) : JsVal :=
  VNum (Num (Z.of_nat (length xs))).

(** ToBoolean, as used by [||]. *)
Definition ToBoolean (v : JsVal) : bool :=
  match v with
  | VUndef | VNull => false
  | VBool b => b
  | VNum NaN => false
  | VNum (Num z) => negb (z =? 0)
  | VNum (Infinity _) => true
  | VStr s => negb (String.eqb s "")
  | VArr _ | VObj _ => true
  end.

(** [a || b] *)
Definition js_or (a b : JsVal) : JsVal :=
  if ToBoolean a then a else b.

(** Number::toString for [NaN] and for integers (decimal digits, which is
    what the language prints for integers of magnitude below 10^21). *)
Definition Number_toString (n : JsNum) : string :=
  match n with
  | NaN => "NaN"
  | Num z => NilZero.string_of_int (Z.to_int z)
  | Infinity false => "Infinity"
  | Infinity true => "-Infinity"
  end.

(** ToString.  An array prints as its elements joined by commas, with
    [undefined] and [null] elements printed as the empty string; a plain
    object prints as [[object Object]]. *)
Fixpoint ToString (v : JsVal) : string :=
  match v with
  | VUndef => "undefined"
  | VNull => "null"
  | VBool true => "true"
  | VBool false => "false"
  | VNum n => Number_toString n
  | VStr s => s
  | VArr xs =>
      (fix join (l : list JsVal) : string :=
         match l with
         | [] => ""
         | x :: rest =>
             let sx := match x with
                       | VUndef | VNull => ""
                       | _ => ToString x
                       end in
             match rest with
             | [] => sx
             | _ :: _ => sx ++ "," ++ join rest
             end
         end) xs
  | VObj _ => "[object Object]"
  end.

(** ** String built-ins *)

(** WhiteSpace and LineTerminator code units below 256: TAB, LF, VT, FF,
    CR, SP and NBSP. *)
Definition isWhiteSpace (c : ascii) : bool :=
  let n := N_of_ascii c in
  ((n =? 9) || (n =? 10) || (n =? 11) || (n =? 12) || (n =? 13)
   || (n =? 32) || (n =? 160))%N.

(** [s.trimStart()] *)
Fixpoint trimStart (s : string) : string :=
  match s with
  | EmptyString => EmptyString
  | String c rest => if isWhiteSpace c then trimStart rest else s
  end.

(** [s.trimEnd()] *)
Fixpoint trimEnd (s : string) : string :=
  match s with
  | EmptyString => EmptyString
  | String c rest =>
      match trimEnd rest with
      | EmptyString => if isWhiteSpace c then EmptyString
                       else String c EmptyString
      | r => String c r
      end
  end.

(** [s.trim()] *)
Definition trim (s : string) : string := trimStart (trimEnd s).

(** Lower-casing of one code unit below 256: A-Z, and the Latin-1 capitals
    U+00C0-U+00DE except the multiplication sign U+00D7, move up by 32. *)
Definition lowerChar (c : ascii) : ascii :=
  let n := N_of_ascii c in
  if ((65 <=? n) && (n <=? 90))%N then ascii_of_N (n + 32)
  else if ((192 <=? n) && (n <=? 222) && negb (n =? 215))%N
       then ascii_of_N (n + 32)
  else c.

(** [s.toLowerCase()] *)
Fixpoint toLowerCase (s : string) : string :=
  match s with
  | EmptyString => EmptyString
  | String c rest => String (lowerChar c) (toLowerCase rest)
  end.

(** [s.startsWith(p)] *)
Fixpoint startsWith (s p : string) : bool :=
  match p with
  | EmptyString => true
  | String pc prest =>
      match s with
      | EmptyString => false
      | String sc srest => Ascii.eqb sc pc && startsWith srest prest
      end
  end.

(** ** parseInt *)

(** The value of a character as a digit in radix 36. *)
Definition digitValue (c : ascii) : option Z :=
  let n := Z.of_N (N_of_ascii c) in
  if (48 <=? n) && (n <=? 57) then Some (n - 48)
  else if (97 <=? n) && (n <=? 122) then Some (n - 87)
  else if (65 <=? n) && (n <=? 90) then Some (n - 55)
  else None.

Definition radixDigit (R : Z) (c : ascii) : option Z :=
  match digitValue c with
  | Some d => if d <? R then Some d else None
  | None => None
  end.

(** The mathematical integer denoted by the longest prefix of radix-[R]
    digits of [s]; [acc] is [None] until a digit has been read. *)
Fixpoint parseDigits (R : Z) (s : string) (acc : option Z) : option Z :=
  match s with
  | EmptyString => acc
  | String c rest =>
      match radixDigit R c with
      | Some d =>
          parseDigits R rest
            (Some (R * match acc with Some a => a | None => 0 end + d))
      | None => acc
      end
  end.

(** The sign step of [parseInt]: a leading [-] makes the sign negative,
    and a leading [+] or [-] is removed. *)
Definition splitSign (s : string) : Z * string :=
  match s with
  | String "-" r => (-1, r)
  | String "+" r => (1, r)
  | _ => (1, s)
  end.

(** The radix step of [parseInt] when no radix is given: a [0x] or [0X]
    prefix is removed and selects 16, anything else is read in radix 10. *)
Definition splitRadix (s : string) : Z * string :=
  match s with
  | String "0" (String "x" r) => (16, r)
  | String "0" (String "X" r) => (16, r)
  | _ => (10, s)
  end.

(** The Number value of a mathematical integer: the nearest double, a tie
    going to the one with the even significand, and an infinity once the
    rounded magnitude reaches 2^1024.  Every integer of magnitude at most
    2^53 is its own double; above that a double keeps the 53 leading bits
    of the magnitude. *)
Definition toNumber (z : Z) : JsNum :=
  let a := Z.abs z in
  if a <=? 2 ^ 53 then Num z
  else
    let e := Z.log2 a - 52 in
    let q := a / 2 ^ e in
    let r := a mod 2 ^ e in
    let half := 2 ^ (e - 1) in
    let q' := if r <? half then q
              else if half <? r then q + 1
              else if Z.even q then q else q + 1 in
    let m := q' * 2 ^ e in
    if 2 ^ 1024 <=? m then Infinity (z <? 0)
    else Num (Z.sgn z * m).

(** [parseInt(string)] with the radix argument absent: leading white space
    is dropped, the sign and the radix prefix are read, and the longest run
    of digits is converted, exactly in radix 10 and 16; no digit at all
    gives [NaN]. *)
Definition parseInt_string (s : string) : JsNum :=
  let '(sign, S1) := splitSign (trimStart s) in
  let '(R, S2) := splitRadix S1 in
  match parseDigits R S2 None with
  | None => NaN
  | Some m => toNumber (sign * m)
  end.

(** [parseInt(v)]: the argument is first converted with ToString. *)
Definition parseInt (v : JsVal) : JsNum := parseInt_string (ToString v).

(** ** The database layer *)

(** One call [pool.query(sql, values)]; [values] is [None] when the call
    passes the statement text alone. *)
Record Query : Type := mkQuery {
  sql : string;
  values : option (list JsVal)
}.

(** What the promise returned by [pool.query] settles to.  It resolves to
    [[rows, fields]], of which only [rows] is used: an array of row objects
    ([DbOk]) when the statement returns a result set, the driver's
    ResultSetHeader object ([DbHeader], with its own properties
    [fieldCount], [affectedRows], [insertId], [info], ...) when the server
    answers with an OK packet.  Or it rejects with an error whose
    [message] is the driver's text ([DbErr]). *)
Inductive DbOutcome : Type :=
| DbOk (rows : list Row)
| DbHeader (header : Row)
| DbErr (message : string).

(** The first element of what [pool.query] resolved to. *)
Inductive Result : Type :=
| Rows (rows : list Row)
| Header (header : Row).

(** Exceptions that can be raised inside a handler's [try] block. *)
Inductive Exn : Type :=
| TypeError (message : string)
| DbError (message : string).

(** [error.message] *)
Definition error_message (e : Exn) : string :=
  match e with
  | TypeError m => m
  | DbError m => m
  end.

(** The HTTP response: status code and the object given to [res.json]. *)
Record Response : Type := mkResponse {
  status : Z;
  body : JsVal
}.

(** [res.json(obj)] *)
Definition res_json (obj : list (string * JsVal)) : Response :=
  mkResponse 200 (VObj obj).

(** [res.status(code).json(obj)] *)
Definition res_status_json (code : Z) (obj : list (string * JsVal)) : Response :=
  mkResponse code (VObj obj).

(** [resp.body.key] *)
Definition bodyField (key : string) (r : Response) : JsVal :=
  match body r with
  | VObj fields => getField key fields
  | _ => VUndef
  end.

(** Is [key] an own property of the response object? *)
Definition hasBodyField (key : string) (r : Response) : bool :=
  match body r with
  | VObj fields => existsb (fun kv => String.eqb (fst kv) key) fields
  | _ => false
  end.

(** The array of row objects as a JavaScript value. *)
Definition rowsValue (rows : list Row) : JsVal := VArr (map VObj rows).

(** [rows] as the JavaScript value it is: the array, or the header
    object. *)
Definition resultValue (r : Result) : JsVal :=
  match r with
  | Rows rows => rowsValue rows
  | Header h => VObj h
  end.

(** [rows.length]: a ResultSetHeader is not an array and has no [length]
    property. *)
Definition result_length (r : Result) : JsVal :=
  match r with
  | Rows rows => length_of rows
  | Header _ => VUndef
  end.

(** ** The handler monad *)

(** The world a handler runs in: the state of the database behind the pool
    and the statements sent so far, oldest first, each with its outcome. *)
Record World (DbState : Type) : Type := mkWorld {
  dbState : DbState;
  issued : list (Query * DbOutcome)
}.

Arguments mkWorld {DbState} _ _.
Arguments dbState {DbState} _.
Arguments issued {DbState} _.

(** A computation either throws or returns, and leaves a new world. *)
Definition M (DbState A : Type) : Type :=
  World DbState -> (Exn + A) * World DbState.

Definition ret {DbState A : Type} (a : A) : M DbState A :=
  fun w => (inr a, w).

Definition bind {DbState A B : Type}
    (c : M DbState A) (k : A -> M DbState B) : M DbState B :=
  fun w =>
    match c w with
    | (inl e, w') => (inl e, w')
    | (inr a, w') => k a w'
    end.

(** [throw e] *)
Definition throw {DbState A : Type} (e : Exn) : M DbState A :=
  fun w => (inl e, w).

(** [try { c } catch (error) { h error }] *)
Definition try_catch {DbState A : Type}
    (c : M DbState A) (h : Exn -> M DbState A) : M DbState A :=
  fun w =>
    match c w with
    | (inl e, w') => h e w'
    | (inr a, w') => (inr a, w')
    end.

Declare Scope handler_scope.
Delimit Scope handler_scope with handler.

Notation "x <- c ;; k" := (bind c (fun x => k))
  (at level 61, c at next level, right associativity) : handler_scope.

Local Open Scope handler_scope.

Section Pool.

Context {DbState : Type}.

(** The database: how it answers one statement in a given state. *)
Variable exec : DbState -> Query -> DbOutcome * DbState.

(** [await pool.query(sql, values)], destructured as [[rows]]: the
    statement is sent and logged; a rejection is rethrown. *)
Definition pool_query (text : string) (vals : option (list JsVal))
    : M DbState Result :=
  fun w =>
    let q := mkQuery text vals in
    let '(o, s') := exec (dbState w) q in
    let w' := mkWorld s' (issued w ++ [(q, o)]) in
    match o with
    | DbOk rows => (inr (Rows rows), w')
    | DbHeader h => (inr (Header h), w')
    | DbErr m => (inl (DbError m), w')
    end.

(** [rows.map(row => Object.values(row)[0])], for the variable called
    [name]: a ResultSetHeader has no [map], and calling it throws. *)
Definition first_columns_of (name : string) (r : Result)
    : M DbState (list JsVal) :=
  match r with
  | Rows rows => ret (map (fun row => index0 (Object_values row)) rows)
  | Header _ => throw (TypeError (name ++ ".map is not a function"))
  end.

(** The [catch] block shared by every data handler:
    [res.status(500).json({ success: false, error: error.message })]. *)
Definition catch_500 (error : Exn) : M DbState Response :=
  ret (res_status_json 500
         [("success", VBool false);
          ("error", VStr (error_message error))]).

(** *** Handlers common to both services *)

(** [GET /health]; [now] is [new Date().toISOString()]. *)
Definition get_health (now : string) : M DbState Response :=
  try_catch
    (_ <- pool_query "SELECT 1" None ;;
     ret (res_json
            [("status", VStr "ok");
             ("message", VStr "Database connection successful");
             ("timestamp", VStr now)]))
    (fun error =>
       ret (res_status_json 500
              [("status", VStr "error");
               ("message", VStr "Database connection failed");
               ("error", VStr (error_message error))])).

(** [const { query } = req.body]: destructuring [undefined] or [null]
    throws; a key that is absent (or a body that is not a plain object)
    gives [undefined]. *)
Definition destructure_query (req_body : JsVal) : M DbState JsVal :=
  match req_body with
  | VUndef =>
      throw (TypeError
        "Cannot destructure property 'query' of 'req.body' as it is undefined.")
  | VNull =>
      throw (TypeError
        "Cannot destructure property 'query' of 'req.body' as it is null.")
  | VObj fields => ret (getField "query" fields)
  | _ => ret VUndef
  end.

(** [POST /query].  [query.trim()] throws a TypeError unless [query] is a
    string: no value that arrives in a JSON body has a callable [trim]. *)
Definition post_query (req_body : JsVal) : M DbState Response :=
  try_catch
    (query <- destructure_query req_body ;;
     match query with
     | VStr q =>
         if negb (startsWith (toLowerCase (trim q)) "select") then
           ret (res_status_json 400
                  [("success", VBool false);
                   ("error", VStr "Only SELECT queries are allowed")])
         else
           rows <- pool_query q None ;;
           ret (res_json
                  [("success", VBool true);
                   ("count", result_length rows);
                   ("data", resultValue rows)])
     | VUndef =>
         throw (TypeError
           "Cannot read properties of undefined (reading 'trim')")
     | VNull =>
         throw (TypeError
           "Cannot read properties of null (reading 'trim')")
     | _ => throw (TypeError "query.trim is not a function")
     end)
    catch_500.

(** [countResult[0].total]: reading a property of [undefined] throws, and
    [countResult[0]] is [undefined] for an empty array and for a
    ResultSetHeader, which has no property [0]. *)
Definition first_total (countResult : Result) : M DbState JsVal :=
  match countResult with
  | Rows (row :: _) => ret (getField "total" row)
  | Rows [] | Header _ =>
      throw (TypeError
        "Cannot read properties of undefined (reading 'total')")
  end.

(** *** The single-database service (version 1.0.0) *)

(** [GET /tables] *)
Definition get_tables : M DbState Response :=
  try_catch
    (tables <- pool_query "SHOW TABLES" None ;;
     tableNames <- first_columns_of "tables" tables ;;
     ret (res_json
            [("success", VBool true);
             ("count", length_of tableNames);
             ("tables", VArr tableNames)]))
    catch_500.

(** [GET /table/:tableName/structure] *)
Definition get_table_structure (tableName : string) : M DbState Response :=
  try_catch
    (columns <- pool_query ("DESCRIBE " ++ tableName) None ;;
     ret (res_json
            [("success", VBool true);
             ("table", VStr tableName);
             ("columns", resultValue columns)]))
    catch_500.

(** [GET /table/:tableName]; [req_limit] and [req_offset] are
    [req.query.limit] and [req.query.offset]. *)
Definition get_table_data (tableName : string) (req_limit req_offset : JsVal)
    : M DbState Response :=
  try_catch
    (let limit := js_or req_limit (VNum (Num 100)) in
     let offset := js_or req_offset (VNum (Num 0)) in
     rows <- pool_query
               ("SELECT * FROM " ++ tableName ++ " LIMIT ? OFFSET ?")
               (Some [VNum (parseInt limit); VNum (parseInt offset)]) ;;
     countResult <- pool_query
               ("SELECT COUNT(*) as total FROM " ++ tableName) None ;;
     total <- first_total countResult ;;
     ret (res_json
            [("success", VBool true);
             ("table", VStr tableName);
             ("total", total);
             ("count", result_length rows);
             ("data", resultValue rows)]))
    catch_500.

(** The body shared by the four fixed-table handlers, which differ in the
    table name written into the statement only. *)
Definition fixed_table (table : string) (req_limit : JsVal)
    : M DbState Response :=
  try_catch
    (let limit := js_or req_limit (VNum (Num 100)) in
     rows <- pool_query ("SELECT * FROM " ++ table ++ " LIMIT ?")
               (Some [VNum (parseInt limit)]) ;;
     ret (res_json
            [("success", VBool true);
             ("count", result_length rows);
             ("data", resultValue rows)]))
    catch_500.

(** [GET /deals] *)
Definition get_deals := fixed_table "deal".
(** [GET /companies] *)
Definition get_companies := fixed_table "company".
(** [GET /contacts] *)
Definition get_contacts := fixed_table "contact".
(** [GET /leads] *)
Definition get_leads := fixed_table "lead".

(** *** The multi-database service (version 2.0.0) *)

(** The table reference of the multi-database statements: the database
    name and the table name, each between backticks, joined by a dot. *)
Definition qualified (dbName tableName : string) : string :=
  "`" ++ dbName ++ "`.`" ++ tableName ++ "`".

(** [GET /databases] *)
Definition get_databases : M DbState Response :=
  try_catch
    (databases <- pool_query "SHOW DATABASES" None ;;
     dbNames <- first_columns_of "databases" databases ;;
     ret (res_json
            [("success", VBool true);
             ("count", length_of dbNames);
             ("databases", VArr dbNames)]))
    catch_500.

(** [GET /database/:dbName/tables] *)
Definition get_database_tables (dbName : string) : M DbState Response :=
  try_catch
    (tables <- pool_query ("SHOW TABLES FROM `" ++ dbName ++ "`") None ;;
     tableNames <- first_columns_of "tables" tables ;;
     ret (res_json
            [("success", VBool true);
             ("database", VStr dbName);
             ("count", length_of tableNames);
             ("tables", VArr tableNames)]))
    catch_500.

(** [GET /database/:dbName/table/:tableName] *)
Definition get_database_table_data (dbName tableName : string)
    (req_limit req_offset : JsVal) : M DbState Response :=
  try_catch
    (let limit := js_or req_limit (VNum (Num 100)) in
     let offset := js_or req_offset (VNum (Num 0)) in
     rows <- pool_query
               ("SELECT * FROM " ++ qualified dbName tableName
                  ++ " LIMIT ? OFFSET ?")
               (Some [VNum (parseInt limit); VNum (parseInt offset)]) ;;
     countResult <- pool_query
               ("SELECT COUNT(*) as total FROM "
                  ++ qualified dbName tableName) None ;;
     total <- first_total countResult ;;
     ret (res_json
            [("success", VBool true);
             ("database", VStr dbName);
             ("table", VStr tableName);
             ("total", total);
             ("count", result_length rows);
             ("data", resultValue rows)]))
    catch_500.

(** [GET /database/:dbName/table/:tableName/structure] *)
Definition get_database_table_structure (dbName tableName : string)
    : M DbState Response :=
  try_catch
    (columns <- pool_query ("DESCRIBE " ++ qualified dbName tableName) None ;;
     ret (res_json
            [("success", VBool true);
             ("database", VStr dbName);
             ("table", VStr tableName);
             ("columns", resultValue columns)]))
    catch_500.

End Pool.

(** ** Running a handler *)

(** One request served from database state [s], with an empty log. *)
Definition run {DbState A : Type} (c : M DbState A) (s : DbState)
    : (Exn + A) * World DbState :=
  c (mkWorld s []).

(** The statements a run sent, in order. *)
Definition statements {DbState A : Type}
    (r : (Exn + A) * World DbState) : list Query :=
  map fst (issued (snd r)).

(** Every route that reaches the pool, with the request data it reads.
    The one other route of each service, [GET /], is not among them: it
    answers a constant description of the service with status 200, inside
    no [try], and never calls [pool.query]. *)
Inductive Endpoint : Type :=
| Health (now : string)
| Query_ (req_body : JsVal)
| Tables
| TableStructure (tableName : string)
| TableData (tableName : string) (req_limit req_offset : JsVal)
| Deals (req_limit : JsVal)
| Companies (req_limit : JsVal)
| Contacts (req_limit : JsVal)
| Leads (req_limit : JsVal)
| Databases
| DatabaseTables (dbName : string)
| DatabaseTableData (dbName tableName : string) (req_limit req_offset : JsVal)
| DatabaseTableStructure (dbName tableName : string).

(** Route dispatch. *)
Definition handle {DbState : Type}
    (exec : DbState -> Query -> DbOutcome * DbState) (e : Endpoint)
    : M DbState Response :=
  match e with
  | Health now => get_health exec now
  | Query_ b => post_query exec b
  | Tables => get_tables exec
  | TableStructure t => get_table_structure exec t
  | TableData t l o => get_table_data exec t l o
  | Deals l => get_deals exec l
  | Companies l => get_companies exec l
  | Contacts l => get_contacts exec l
  | Leads l => get_leads exec l
  | Databases => get_databases exec
  | DatabaseTables d => get_database_tables exec d
  | DatabaseTableData d t l o => get_database_table_data exec d t l o
  | DatabaseTableStructure d t => get_database_table_structure exec d t
  end.

Definition isHealth (e : Endpoint) : bool :=
  match e with
  | Health _ => true
  | _ => false
  end.

(** The key under which a success envelope carries its collection, for the
    routes that also report a [count]. *)
Definition collectionKey (e : Endpoint) : option string :=
  match e with
  | Query_ _ | TableData _ _ _ | DatabaseTableData _ _ _ _
  | Deals _ | Companies _ | Contacts _ | Leads _ => Some "data"
  | Tables | DatabaseTables _ => Some "tables"
  | Databases => Some "databases"
  | Health _ | TableStructure _ | DatabaseTableStructure _ _ => None
  end.

(** The statements of the paged read, as the handlers write them. *)
Definition pageQuery (target : string) (req_limit req_offset : JsVal) : Query :=
  mkQuery ("SELECT * FROM " ++ target ++ " LIMIT ? OFFSET ?")
          (Some [VNum (parseInt (js_or req_limit (VNum (Num 100))));
                 VNum (parseInt (js_or req_offset (VNum (Num 0))))]).

Definition countQuery (target : string) : Query :=
  mkQuery ("SELECT COUNT(*) as total FROM " ++ target) None.

Definition limitQuery (target : string) (req_limit : JsVal) : Query :=
  mkQuery ("SELECT * FROM " ++ target ++ " LIMIT ?")
          (Some [VNum (parseInt (js_or req_limit (VNum (Num 100))))]).

(** The failure envelope of [catch_500]. *)
Definition failure500 (message : string) : Response :=
  res_status_json 500 [("success", VBool false); ("error", VStr message)].

(** The failure envelope of the health check. *)
Definition healthFailure (message : string) : Response :=
  res_status_json 500 [("status", VStr "error");
                       ("message", VStr "Database connection failed");
                       ("error", VStr message)].

(** The success envelopes of the row-returning handlers, for a result
    set. *)
Definition tableDataEnvelope (tableName : string)
    (rows : list Row) (total : JsVal) : Response :=
  res_json [("success", VBool true);
            ("table", VStr tableName);
            ("total", total);
            ("count", length_of rows);
            ("data", rowsValue rows)].

Definition rowsEnvelope (rows : list Row) : Response :=
  res_json [("success", VBool true);
            ("count", length_of rows);
            ("data", rowsValue rows)].

(** The same envelopes for whatever [pool.query] resolved to. *)
Definition tableDataResult (tableName : string)
    (rows : Result) (total : JsVal) : Response :=
  res_json [("success", VBool true);
            ("table", VStr tableName);
            ("total", total);
            ("count", result_length rows);
            ("data", resultValue rows)].

Definition databaseTableDataResult (dbName tableName : string)
    (rows : Result) (total : JsVal) : Response :=
  res_json [("success", VBool true);
            ("database", VStr dbName);
            ("table", VStr tableName);
            ("total", total);
            ("count", result_length rows);
            ("data", resultValue rows)].

Definition rowsResult (rows : Result) : Response :=
  res_json [("success", VBool true);
            ("count", result_length rows);
            ("data", resultValue rows)].

(** How the promise settled: rejected with a message, or resolved. *)
Definition settled (o : DbOutcome) : string + Result :=
  match o with
  | DbOk rows => inr (Rows rows)
  | DbHeader h => inr (Header h)
  | DbErr m => inl m
  end.

(** The reply of a handler that sends one statement and shapes what it
    resolved to. *)
Definition answerOne (shape : Result -> Response) (o : DbOutcome) : Response :=
  match o with
  | DbOk rows => shape (Rows rows)
  | DbHeader h => shape (Header h)
  | DbErr m => failure500 m
  end.

(** The reply of a listing handler whose result variable is called
    [name]. *)
Definition answerListing (name : string) (shape : list JsVal -> Response)
    (o : DbOutcome) : Response :=
  match o with
  | DbOk rows => shape (map (fun row => index0 (Object_values row)) rows)
  | DbHeader _ => failure500 (name ++ ".map is not a function")
  | DbErr m => failure500 m
  end.

(** The reply of a paged read whose page statement resolved to [page] and
    whose count statement settled to [o2]. *)
Definition answerPaged (shape : Result -> JsVal -> Response)
    (page : Result) (o2 : DbOutcome) : Response :=
  match o2 with
  | DbOk (c0 :: _) => shape page (getField "total" c0)
  | DbOk [] | DbHeader _ =>
      failure500 "Cannot read properties of undefined (reading 'total')"
  | DbErr m => failure500 m
  end.

(** The reply of the health check, which looks only at whether its
    statement was rejected. *)
Definition answerHealth (now : string) (o : DbOutcome) : Response :=
  match o with
  | DbErr m => healthFailure m
  | DbOk _ | DbHeader _ =>
      res_json [("status", VStr "ok");
                ("message", VStr "Database connection successful");
                ("timestamp", VStr now)]
  end.




(** An envelope with some of its keys left out. *)
Definition dropFields (keys : list string) (r : Response) : Response :=
  match body r with
  | VObj fields =>
      mkResponse (status r)
        (VObj (filter
                 (fun kv => negb (existsb (String.eqb (fst kv)) keys))
                 fields))
  | _ => r
  end.


(** The table a paged read is aimed at, as written into its statements,
    with the raw page parameters of the request. *)
Definition pagedTarget (e : Endpoint) : option (string * JsVal * JsVal) :=
  match e with
  | TableData t l o => Some (t, l, o)
  | DatabaseTableData d t l o => Some (qualified d t, l, o)
  | _ => None
  end.

(** ** Identifiers *)



(** ** Decimal numerals *)






(** An optional sign in front of a numeral. *)
Inductive Sign : Type := NoSign | Plus | Minus.

Definition signText (sg : Sign) : string :=
  match sg with
  | NoSign => ""
  | Plus => "+"
  | Minus => "-"
  end.

Definition signFactor (sg : Sign) : Z :=
  match sg with
  | Minus => -1
  | _ => 1
  end.

(** ** Test databases *)

(** A server that cannot be reached: every statement is rejected. *)
Definition unreachable (s : unit) (q : Query) : DbOutcome * unit :=
  (DbErr "connect ECONNREFUSED 127.0.0.1:3306", s).

(** A database holding one table.  Its state is the table's rows together
    with the number of statements served so far; it understands the three
    statements the paged and fixed-table reads send for the table written
    [target], with MySQL's meaning of LIMIT and OFFSET. *)
Definition rowsPage (limit offset : Z) (rows : list Row) : list Row :=
  firstn (Z.to_nat limit) (skipn (Z.to_nat offset) rows).

Definition oneTable (target : string) (st : list Row * nat) (q : Query)
    : DbOutcome * (list Row * nat) :=
  let rows := fst st in
  let answer :=
    if String.eqb (sql q) ("SELECT * FROM " ++ target ++ " LIMIT ? OFFSET ?")
    then match values q with
         | Some [VNum (Num l); VNum (Num o)] =>
             if (0 <=? l) && (0 <=? o) then DbOk (rowsPage l o rows)
             else DbErr "You have an error in your SQL syntax"
         | _ => DbErr "Incorrect arguments to mysqld_stmt_execute"
         end
    else if String.eqb (sql q) ("SELECT * FROM " ++ target ++ " LIMIT ?")
    then match values q with
         | Some [VNum (Num l)] =>
             if 0 <=? l then DbOk (rowsPage l 0 rows)
             else DbErr "You have an error in your SQL syntax"
         | _ => DbErr "Incorrect arguments to mysqld_stmt_execute"
         end
    else if String.eqb (sql q) ("SELECT COUNT(*) as total FROM " ++ target)
    then DbOk [[("total", VNum (Num (Z.of_nat (length rows))))]]
    else DbErr "You have an error in your SQL syntax"
  in (answer, (rows, S (snd st))).

Definition orderRow (id : Z) : Row := [("id", VNum (Num id))].

Definition fiveOrders : list Row :=
  [orderRow 1; orderRow 2; orderRow 3; orderRow 4; orderRow 5].

(** ** Vocabulary for the further properties *)

(** A string made of white space only. *)
Definition allWhiteSpace (s : string) : bool :=
  forallb isWhiteSpace (list_ascii_of_string s).

(** A string without any white space. *)
Definition noWhiteSpace (s : string) : bool :=
  forallb (fun c => negb (isWhiteSpace c)) (list_ascii_of_string s).

(** A name without a backtick. *)
Definition noBacktick (s : string) : bool :=
  forallb (fun c => negb (Ascii.eqb c "`")) (list_ascii_of_string s).

(** How many statements a route may send for one request. *)
Definition statementBudget (e : Endpoint) : nat :=
  match pagedTarget e with
  | Some _ => 2%nat
  | None => 1%nat
  end.

Definition isQuery (e : Endpoint) : bool :=
  match e with
  | Query_ _ => true
  | _ => false
  end.


(** A success response of route [e]: status 200, the route's success mark,
    no [error] key. *)
Definition okResponse (e : Endpoint) (r : Response) : Prop :=
  status r = 200
  /\ hasBodyField "error" r = false
  /\ (if isHealth e then bodyField "status" r = VStr "ok"
      else bodyField "success" r = VBool true).

(** A failure response of route [e] with status [code]: the route's
    failure mark and an [error] key holding a string. *)
Definition failResponse (e : Endpoint) (code : Z) (r : Response) : Prop :=
  status r = code
  /\ (exists m, bodyField "error" r = VStr m)
  /\ hasBodyField "error" r = true
  /\ (if isHealth e then bodyField "status" r = VStr "error"
      else bodyField "success" r = VBool false).

(** The three ways a request can go: nothing sent, one statement sent, or
    (paged reads only) a page statement not rejected and a count statement
    sent. *)
Inductive RunShape {DbState : Type}
    (exec : DbState -> Query -> DbOutcome * DbState)
    (e : Endpoint) (s : DbState)
    : (Exn + Response) * World DbState -> Prop :=
| NothingSent (code : Z) (resp : Response) :
    isQuery e = true ->
    code = 400 \/ code = 500 ->
    failResponse e code resp ->
    RunShape exec e s (inr resp, mkWorld s [])
| OneSent (q : Query) (o : DbOutcome) (s1 : DbState) (resp : Response) :
    exec s q = (o, s1) ->
    match o with
    | DbOk _ => pagedTarget e = None /\ okResponse e resp
    | DbHeader _ =>
        pagedTarget e = None
        /\ (okResponse e resp \/ failResponse e 500 resp)
    | DbErr m => failResponse e 500 resp /\ bodyField "error" resp = VStr m
    end ->
    RunShape exec e s (inr resp, mkWorld s1 [(q, o)])
| TwoSent (q1 q2 : Query) (o1 o2 : DbOutcome)
    (s1 s2 : DbState) (resp : Response) :
    pagedTarget e <> None ->
    exec s q1 = (o1, s1) ->
    (forall m, o1 <> DbErr m) ->
    exec s1 q2 = (o2, s2) ->
    match o2 with
    | DbOk (_ :: _) => okResponse e resp
    | DbOk [] | DbHeader _ => failResponse e 500 resp
    | DbErr m => failResponse e 500 resp /\ bodyField "error" resp = VStr m
    end ->
    RunShape exec e s (inr resp, mkWorld s2 [(q1, o1); (q2, o2)]).

(** A response with the [database] key left out. *)
Definition withoutDatabase (r : Exn + Response) : Exn + Response :=
  match r with
  | inl e => inl e
  | inr resp => inr (dropFields ["database"] resp)
  end.

(** The value of a character as a hexadecimal digit, 0 for any other. *)
Definition hexDigitValue (c : ascii) : Z :=
  match radixDigit 16 c with
  | Some d => d
  | None => 0
  end.

Definition isHexDigit (c : ascii) : bool :=
  match radixDigit 16 c with
  | Some _ => true
  | None => false
  end.

Definition allHexDigits (s : string) : bool :=
  forallb isHexDigit (list_ascii_of_string s).

(** The integer written by a string of hexadecimal digits. *)
Definition hexValue (s : string) : Z :=
  fold_left (fun acc c => 16 * acc + hexDigitValue c)
            (list_ascii_of_string s) 0.

(** What may follow a hexadecimal numeral without becoming part of it. *)
Definition endsHexNumeral (t : string) : bool :=
  match t with
  | EmptyString => true
  | String c _ => negb (isHexDigit c)
  end.

(** ** Further test databases *)

(** The ResultSetHeader of a statement that touched one row. *)
Definition okHeader : Row :=
  [("fieldCount", VNum (Num 0));
   ("affectedRows", VNum (Num 1));
   ("insertId", VNum (Num 0));
   ("info", VStr "");
   ("serverStatus", VNum (Num 2));
   ("warningStatus", VNum (Num 0));
   ("changedRows", VNum (Num 0))].

(** A server that answers every statement with an OK packet, as MySQL
    does for [SELECT ... INTO @variable]. *)
Definition okPacket (s : unit) (q : Query) : DbOutcome * unit :=
  (DbHeader okHeader, s).


(** A server whose default database is [dbName]: the table may be written
    bare or qualified by the database name, with the same meaning. *)
Definition inDatabase (dbName tableName : string) (st : list Row * nat)
    (q : Query) : DbOutcome * (list Row * nat) :=
  let full := qualified dbName tableName in
  let text :=
    if String.eqb (sql q) ("SELECT * FROM " ++ full ++ " LIMIT ? OFFSET ?")
    then "SELECT * FROM " ++ tableName ++ " LIMIT ? OFFSET ?"
    else if String.eqb (sql q) ("SELECT COUNT(*) as total FROM " ++ full)
    then "SELECT COUNT(*) as total FROM " ++ tableName
    else if String.eqb (sql q) ("DESCRIBE " ++ full)
    then "DESCRIBE " ++ tableName
    else if String.eqb (sql q) ("SHOW TABLES FROM `" ++ dbName ++ "`")
    then "SHOW TABLES"
    else sql q in
  oneTable tableName st (mkQuery text (values q)).

(** * Properties *)

(** ** The built-ins on sample inputs *)

Example trim_both_ends : trim "  SeLeCt 1  " = "SeLeCt 1".
Proof. reflexivity. Qed.

Example toLowerCase_mixed : toLowerCase "SeLeCt * FROM Deal" = "select * from deal".
Proof. reflexivity. Qed.

Example startsWith_needs_prefix :
  startsWith "with t as (select 1) select * from t" "select" = false.
Proof. reflexivity. Qed.

Example parseInt_fraction : parseInt (VStr "12.7") = Num 12.
Proof. reflexivity. Qed.

Example parseInt_negative_fraction : parseInt (VStr " -12.7px") = Num (-12).
Proof. reflexivity. Qed.

Example parseInt_hex : parseInt (VStr "0x1F") = Num 31.
Proof. reflexivity. Qed.

Example parseInt_words : parseInt (VStr "ten") = NaN.
Proof. reflexivity. Qed.

Example parseInt_beyond_safe_integers :
  parseInt (VStr "9007199254740993") = Num 9007199254740992.
Proof. vm_compute. reflexivity. Qed.

Example parseInt_tie_goes_to_even :
  parseInt (VStr "9007199254740995") = Num 9007199254740996.
Proof. vm_compute. reflexivity. Qed.

Example parseInt_hex_beyond_safe_integers :
  parseInt (VStr "0x20000000000001") = Num 9007199254740992.
Proof. vm_compute. reflexivity. Qed.

Example toNumber_largest_double :
  toNumber (2 ^ 1024 - 2 ^ 971) = Num (2 ^ 1024 - 2 ^ 971)
  /\ toNumber (2 ^ 1024 - 2 ^ 970 - 1) = Num (2 ^ 1024 - 2 ^ 971)
  /\ toNumber (2 ^ 1024 - 2 ^ 970) = Infinity false
  /\ toNumber (- 10 ^ 309) = Infinity true.
Proof. vm_compute. repeat split. Qed.

Example parseInt_default : parseInt (js_or VUndef (VNum (Num 100))) = Num 100.
Proof. reflexivity. Qed.

Example parseInt_empty_text : parseInt (js_or (VStr "") (VNum (Num 100))) = Num 100.
Proof. reflexivity. Qed.

Example parseInt_repeated_parameter :
  parseInt (js_or (VArr [VStr "5"; VStr "9"]) (VNum (Num 100))) = Num 5.
Proof. reflexivity. Qed.

Example listing_of_an_ok_packet :
  run (get_tables okPacket) tt
  = (inr (res_status_json 500
            [("success", VBool false);
             ("error", VStr "tables.map is not a function")]),
     mkWorld tt [(mkQuery "SHOW TABLES" None, DbHeader okHeader)]).
Proof. reflexivity. Qed.

Example structure_of_an_ok_packet :
  fst (run (get_table_structure okPacket "deal") tt)
  = inr (res_json [("success", VBool true);
                   ("table", VStr "deal");
                   ("columns", VObj okHeader)]).
Proof. reflexivity. Qed.

Example page_of_an_ok_packet :
  fst (run (get_table_data okPacket "deal" VUndef VUndef) tt)
  = inr (res_status_json 500
           [("success", VBool false);
            ("error",
             VStr "Cannot read properties of undefined (reading 'total')")]).
Proof. reflexivity. Qed.

Example tables_first_column :
  fst (run (get_tables
              (fun (s : unit) (_ : Query) =>
                 (DbOk [[("Tables_in_crm", VStr "deal")];
                        [("Tables_in_crm", VStr "lead")]], s))) tt)
  = inr (res_json [("success", VBool true);
                   ("count", VNum (Num 2));
                   ("tables", VArr [VStr "deal"; VStr "lead"])]).
Proof. reflexivity. Qed.

(** ** How the handlers run *)

Section RunEquations.

Context {DbState : Type}.
Variable exec : DbState -> Query -> DbOutcome * DbState.

(** A handler that sends one statement and shapes what it resolved to. *)
Lemma run_single_statement
    (text : string) (vals : option (list JsVal))
    (shape : Result -> Response) (s : DbState) :
  run (try_catch
         (rows <- pool_query exec text vals ;; ret (shape rows))
         catch_500) s
  = let '(o, s1) := exec s (mkQuery text vals) in
    (inr (answerOne shape o), mkWorld s1 [(mkQuery text vals, o)]).
Proof.
  unfold run, try_catch, bind, pool_query, catch_500, ret; simpl.
  destruct (exec s (mkQuery text vals)) as [[rows | h | m] s1]; reflexivity.
Qed.

(** A listing handler. *)
Lemma run_listing
    (text name : string) (shape : list JsVal -> Response) (s : DbState) :
  run (try_catch
         (rows <- pool_query exec text None ;;
          names <- first_columns_of name rows ;;
          ret (shape names))
         catch_500) s
  = let '(o, s1) := exec s (mkQuery text None) in
    (inr (answerListing name shape o), mkWorld s1 [(mkQuery text None, o)]).
Proof.
  unfold run, try_catch, bind, pool_query, catch_500, first_columns_of,
    ret, throw; simpl.
  destruct (exec s (mkQuery text None)) as [[rows | h | m] s1]; reflexivity.
Qed.

(** A handler that sends a page statement, then a count statement. *)
Lemma run_two_statements
    (text1 : string) (vals1 : option (list JsVal)) (text2 : string)
    (shape : Result -> JsVal -> Response) (s : DbState) :
  run (try_catch
         (rows <- pool_query exec text1 vals1 ;;
          countResult <- pool_query exec text2 None ;;
          total <- first_total countResult ;;
          ret (shape rows total))
         catch_500) s
  = let q1 := mkQuery text1 vals1 in
    let q2 := mkQuery text2 None in
    let '(o1, s1) := exec s q1 in
    match settled o1 with
    | inl m => (inr (failure500 m), mkWorld s1 [(q1, o1)])
    | inr page =>
        let '(o2, s2) := exec s1 q2 in
        (inr (answerPaged shape page o2), mkWorld s2 [(q1, o1); (q2, o2)])
    end.
Proof.
  unfold run, try_catch, bind, pool_query, catch_500, first_total, ret, throw;
    simpl.
  destruct (exec s (mkQuery text1 vals1)) as [[rows | h | m] s1]; simpl;
    [| | reflexivity];
    destruct (exec s1 (mkQuery text2 None)) as [[[| c0 cs] | h2 | m] s2];
    reflexivity.
Qed.

Lemma run_get_table_data (tableName : string) (l o : JsVal) (s : DbState) :
  run (get_table_data exec tableName l o) s
  = let '(o1, s1) := exec s (pageQuery tableName l o) in
    match settled o1 with
    | inl m => (inr (failure500 m), mkWorld s1 [(pageQuery tableName l o, o1)])
    | inr page =>
        let '(o2, s2) := exec s1 (countQuery tableName) in
        (inr (answerPaged (tableDataResult tableName) page o2),
         mkWorld s2 [(pageQuery tableName l o, o1);
                     (countQuery tableName, o2)])
    end.
Proof.
  unfold get_table_data.
  exact (run_two_statements _ _ _ (tableDataResult tableName) s).
Qed.

Lemma run_get_database_table_data
    (dbName tableName : string) (l o : JsVal) (s : DbState) :
  let target := qualified dbName tableName in
  run (get_database_table_data exec dbName tableName l o) s
  = let '(o1, s1) := exec s (pageQuery target l o) in
    match settled o1 with
    | inl m => (inr (failure500 m), mkWorld s1 [(pageQuery target l o, o1)])
    | inr page =>
        let '(o2, s2) := exec s1 (countQuery target) in
        (inr (answerPaged (databaseTableDataResult dbName tableName) page o2),
         mkWorld s2 [(pageQuery target l o, o1); (countQuery target, o2)])
    end.
Proof.
  unfold get_database_table_data.
  exact (run_two_statements _ _ _
           (databaseTableDataResult dbName tableName) s).
Qed.

Lemma run_fixed_table (table : string) (l : JsVal) (s : DbState) :
  run (fixed_table exec table l) s
  = let '(o, s1) := exec s (limitQuery table l) in
    (inr (answerOne rowsResult o), mkWorld s1 [(limitQuery table l, o)]).
Proof.
  unfold fixed_table. exact (run_single_statement _ _ rowsResult s).
Qed.

Lemma run_post_query_text (fields : list (string * JsVal)) (Q : string)
    (s : DbState) :
  getField "query" fields = VStr Q ->
  run (post_query exec (VObj fields)) s
  = if startsWith (toLowerCase (trim Q)) "select" then
      let '(o, s1) := exec s (mkQuery Q None) in
      (inr (answerOne rowsResult o), mkWorld s1 [(mkQuery Q None, o)])
    else
      (inr (res_status_json 400
              [("success", VBool false);
               ("error", VStr "Only SELECT queries are allowed")]),
       mkWorld s []).
Proof.
  intros Hq.
  unfold run, post_query, try_catch, bind, destructure_query, ret; simpl.
  rewrite Hq.
  destruct (startsWith (toLowerCase (trim Q)) "select"); simpl;
    [| reflexivity].
  unfold pool_query; simpl.
  destruct (exec s (mkQuery Q None)) as [[rows | h | m] s1]; reflexivity.
Qed.

(** A request whose [query] is not a string never gets past [trim]. *)
Lemma run_post_query_no_text (req_body : JsVal) (s : DbState) :
  (forall fields Q, req_body = VObj fields ->
                    getField "query" fields <> VStr Q) ->
  exists m,
    run (post_query exec req_body) s = (inr (failure500 m), mkWorld s []).
Proof.
  intros Hno.
  unfold run, post_query, try_catch, bind, destructure_query, catch_500,
    ret, throw.
  destruct req_body as [| | b | n | t | xs | fields]; simpl;
    try (eexists; reflexivity).
  specialize (Hno fields).
  destruct (getField "query" fields) as [| | b | n | t | xs | fs]; simpl;
    try (eexists; reflexivity).
  exfalso. apply (Hno t); reflexivity.
Qed.

End RunEquations.

(** Case analysis on every answer of the database that the goal
    mentions. *)
Ltac split_exec :=
  repeat match goal with
         | |- context [?exec ?s (mkQuery ?t ?v)] =>
             let o := fresh "o" in
             let s' := fresh "s" in
             destruct (exec s (mkQuery t v)) as [o s'];
             destruct o as [[| ? ?] | ? | ?]; simpl
         | |- context [?exec ?s (pageQuery ?t ?l ?o)] =>
             let o' := fresh "o" in
             let s' := fresh "s" in
             destruct (exec s (pageQuery t l o)) as [o' s'];
             destruct o' as [[| ? ?] | ? | ?]; simpl
         | |- context [?exec ?s (countQuery ?t)] =>
             let o := fresh "o" in
             let s' := fresh "s" in
             destruct (exec s (countQuery t)) as [o s'];
             destruct o as [[| ? ?] | ? | ?]; simpl
         | |- context [?exec ?s (limitQuery ?t ?l)] =>
             let o := fresh "o" in
             let s' := fresh "s" in
             destruct (exec s (limitQuery t l)) as [o s'];
             destruct o as [[| ? ?] | ? | ?]; simpl
         end.

(** ** The read-only guard of POST /query *)

(** C1.  A query text whose trimmed, lower-cased copy does not start with
    [select] is answered with status 400, [success: false] and the message
    "Only SELECT queries are allowed"; no statement is sent and the
    database is left as it was. *)
Theorem post_query_rejects_non_select
    {DbState : Type} (exec : DbState -> Query -> DbOutcome * DbState)
    (s : DbState) (fields : list (string * JsVal)) (Q : string) :
  getField "query" fields = VStr Q ->
  startsWith (toLowerCase (trim Q)) "select" = false ->
  run (post_query exec (VObj fields)) s
  = (inr (res_status_json 400
            [("success", VBool false);
             ("error", VStr "Only SELECT queries are allowed")]),
     mkWorld s []).
Proof.
  intros Hq Hguard.
  rewrite (run_post_query_text exec fields Q s Hq), Hguard.
  reflexivity.
Qed.

(** [DROP TABLE orders] is refused and the table keeps its five rows. *)
Lemma post_query_rejects_drop_table :
  startsWith (toLowerCase (trim "DROP TABLE orders")) "select" = false
  /\ run (post_query (oneTable "orders")
            (VObj [("query", VStr "DROP TABLE orders")])) (fiveOrders, 0%nat)
     = (inr (res_status_json 400
               [("success", VBool false);
                ("error", VStr "Only SELECT queries are allowed")]),
        mkWorld (fiveOrders, 0%nat) []).
Proof.
  split; [reflexivity |].
  apply (post_query_rejects_non_select (oneTable "orders") (fiveOrders, 0%nat)
           [("query", VStr "DROP TABLE orders")] "DROP TABLE orders");
    reflexivity.
Defined.

(** A statement that only contains [select] further on is refused too. *)
Example post_query_rejects_stacked :
  statements
    (run (post_query unreachable
            (VObj [("query", VStr " delete from deal; SELECT 1")])) tt)
  = [].
Proof. reflexivity. Qed.

(** C3.  A query text whose trimmed, lower-cased copy starts with [select]
    is sent to the database exactly as it arrived, as the only statement
    of the request and without bound values; the reply is shaped from
    what the database answered. *)
Theorem post_query_forwards_text_unmodified
    {DbState : Type} (exec : DbState -> Query -> DbOutcome * DbState)
    (s : DbState) (fields : list (string * JsVal)) (Q : string) :
  getField "query" fields = VStr Q ->
  startsWith (toLowerCase (trim Q)) "select" = true ->
  issued (snd (run (post_query exec (VObj fields)) s))
  = [(mkQuery Q None, fst (exec s (mkQuery Q None)))]
  /\ fst (run (post_query exec (VObj fields)) s)
     = match fst (exec s (mkQuery Q None)) with
       | DbOk rows => inr (rowsEnvelope rows)
       | DbHeader h => inr (res_json [("success", VBool true);
                                      ("count", VUndef);
                                      ("data", VObj h)])
       | DbErr m => inr (failure500 m)
       end.
Proof.
  intros Hq Hguard.
  rewrite (run_post_query_text exec fields Q s Hq), Hguard.
  destruct (exec s (mkQuery Q None)) as [[rows | h | m] s1];
    split; reflexivity.
Qed.

(** White space around the text and mixed case in the keyword survive. *)
Lemma post_query_forwards_padded_mixed_case :
  startsWith (toLowerCase (trim "  SeLeCt * FROM deal  ")) "select" = true
  /\ statements
       (run (post_query unreachable
               (VObj [("query", VStr "  SeLeCt * FROM deal  ")])) tt)
     = [mkQuery "  SeLeCt * FROM deal  " None].
Proof.
  split; [reflexivity |].
  unfold statements.
  rewrite (proj1 (post_query_forwards_text_unmodified unreachable tt
                    [("query", VStr "  SeLeCt * FROM deal  ")]
                    "  SeLeCt * FROM deal  " eq_refl eq_refl)).
  reflexivity.
Defined.

(** C6.  A body without a [query] key: [query.trim()] throws a TypeError,
    the handler's [catch] answers with status 500 and the engine's message,
    and no statement is sent.  The reply is the server-error envelope, not
    the 400 the guard gives to a text it refuses. *)
Theorem post_query_without_text_answers_500
    {DbState : Type} (exec : DbState -> Query -> DbOutcome * DbState)
    (s : DbState) :
  run (post_query exec (VObj [])) s
  = (inr (res_status_json 500
            [("success", VBool false);
             ("error",
              VStr "Cannot read properties of undefined (reading 'trim')")]),
     mkWorld s []).
Proof. reflexivity. Qed.

(** The same holds of any body whose [query] is not a string: status 500,
    nothing sent. *)
Lemma post_query_non_string_answers_500
    {DbState : Type} (exec : DbState -> Query -> DbOutcome * DbState)
    (s : DbState) (req_body : JsVal) :
  (forall fields Q, req_body = VObj fields ->
                    getField "query" fields <> VStr Q) ->
  exists resp,
    run (post_query exec req_body) s = (inr resp, mkWorld s [])
    /\ status resp = 500
    /\ bodyField "success" resp = VBool false.
Proof.
  intros Hno.
  destruct (run_post_query_no_text exec req_body s Hno) as [m Hm].
  exists (failure500 m). rewrite Hm. repeat split.
Qed.

(** ** Identifiers in statement text *)



(** ** Coercion of limit and offset *)












Lemma parseInt_string_steps (s S1 S2 : string) (sign R m : Z) :
  splitSign (trimStart s) = (sign, S1) ->
  splitRadix S1 = (R, S2) ->
  parseDigits R S2 None = Some m ->
  parseInt_string s = toNumber (sign * m).
Proof.
  intros H1 H2 H3. unfold parseInt_string.
  rewrite H1, H2, H3. reflexivity.
Qed.

(** Integers of magnitude up to 2^53 are their own doubles. *)
Lemma toNumber_exact (z : Z) : Z.abs z <= 2 ^ 53 -> toNumber z = Num z.
Proof.
  intros H. unfold toNumber.
  destruct (Z.leb_spec (Z.abs z) (2 ^ 53)) as [_ | Hgt]; [reflexivity |].
  exfalso. apply (Z.lt_irrefl (2 ^ 53)).
  exact (Z.lt_le_trans _ _ _ Hgt H).
Qed.











(** ** The failure contract *)

Lemma run_get_health
    {DbState : Type} (exec : DbState -> Query -> DbOutcome * DbState)
    (now : string) (s : DbState) :
  run (get_health exec now) s
  = let '(o, s1) := exec s (mkQuery "SELECT 1" None) in
    (inr (answerHealth now o), mkWorld s1 [(mkQuery "SELECT 1" None, o)]).
Proof.
  unfold run, get_health, try_catch, bind, pool_query, ret; simpl.
  destruct (exec s (mkQuery "SELECT 1" None)) as [[rows | h | m] s1];
    reflexivity.
Qed.

(** Bring the run of any handler but POST /query to its equation. *)
Ltac run_equation :=
  unfold get_tables, get_databases, get_database_tables, get_table_structure,
    get_database_table_structure, get_deals, get_companies, get_contacts,
    get_leads;
  rewrite ?run_get_health, ?run_listing, ?run_single_statement,
    ?run_get_table_data, ?run_get_database_table_data, ?run_fixed_table.

(** Either the body carries a query text, or [trim] cannot be called. *)
Lemma post_query_body_cases (req_body : JsVal) :
  (exists fields Q, req_body = VObj fields /\ getField "query" fields = VStr Q)
  \/ (forall fields Q, req_body = VObj fields ->
                       getField "query" fields <> VStr Q).
Proof.
  destruct req_body as [| | b | n | t | xs | fields];
    try (right; intros fields Q H; discriminate H).
  destruct (getField "query" fields) as [| | b | n | t | xs | fs] eqn:Hq;
    try (right; intros fields' Q H; injection H as <-; rewrite Hq;
         discriminate).
  left. exists fields, t. split; [reflexivity | exact Hq].
Qed.

Ltac log_cases H :=
  simpl in H;
  repeat match type of H with
         | _ \/ _ => destruct H as [H | H]
         | False => destruct H
         end;
  try (inversion H; subst; clear H); try discriminate.

Ltac settle_caught :=
  split;
  [ eexists; reflexivity
  | let q := fresh "q" in
    let m := fresh "m" in
    let H := fresh "H" in
    intros q m H; log_cases H; reflexivity ].

(** C5, refuted as stated: when the database is down, the health check's
    failure envelope has no [success] key at all. *)
Lemma health_failure_has_no_success_flag :
  fst (run (get_health unreachable "2024-01-01T00:00:00.000Z") tt)
  = inr (res_status_json 500
           [("status", VStr "error");
            ("message", VStr "Database connection failed");
            ("error", VStr "connect ECONNREFUSED 127.0.0.1:3306")])
  /\ match fst (run (get_health unreachable "2024-01-01T00:00:00.000Z") tt) with
     | inr resp =>
         hasBodyField "success" resp = false
         /\ bodyField "success" resp <> VBool false
     | inl _ => False
     end.
Proof.
  repeat split; try reflexivity. discriminate.
Qed.

(** C5, as the code has it.  No exception leaves a handler: every run ends
    in a response.  When a statement was rejected by the database with
    message [m], that response has status 500 and carries [m] under the key
    [error]; it is [{ success: false, error: m }] for every handler but the
    health check, whose envelope is [{ status: 'error', message: 'Database
    connection failed', error: m }]. *)
Theorem database_errors_are_caught
    {DbState : Type} (exec : DbState -> Query -> DbOutcome * DbState)
    (e : Endpoint) (s : DbState) :
  (exists resp, fst (run (handle exec e) s) = inr resp)
  /\ (forall q m,
        In (q, DbErr m) (issued (snd (run (handle exec e) s))) ->
        fst (run (handle exec e) s)
        = inr (if isHealth e then healthFailure m else failure500 m)).
Proof.
  destruct e as [now | req_body | | t | t l o | l | l | l | l
                 | | d | d t l o | d t]; simpl handle; simpl isHealth;
    try (run_equation; split_exec; settle_caught).
  destruct (post_query_body_cases req_body) as [(fields & Q & -> & Hq) | Hno].
  - rewrite (run_post_query_text exec fields Q s Hq).
    destruct (startsWith (toLowerCase (trim Q)) "select");
      split_exec; settle_caught.
  - destruct (run_post_query_no_text exec req_body s Hno) as [m' ->].
    settle_caught.
Qed.

(** With the server unreachable, listing the tables answers
    [{ success: false, error: ... }] with status 500. *)
Lemma tables_failure_when_unreachable :
  In (mkQuery "SHOW TABLES" None,
      DbErr "connect ECONNREFUSED 127.0.0.1:3306")
     (issued (snd (run (handle unreachable Tables) tt)))
  /\ fst (run (handle unreachable Tables) tt)
     = inr (res_status_json 500
              [("success", VBool false);
               ("error", VStr "connect ECONNREFUSED 127.0.0.1:3306")]).
Proof.
  split; [left; reflexivity |].
  apply (proj2 (database_errors_are_caught unreachable Tables tt)
           (mkQuery "SHOW TABLES" None)
           "connect ECONNREFUSED 127.0.0.1:3306").
  left; reflexivity.
Defined.

(** ** Counts *)

Ltac settle_count Hk Hr Hs Hnh :=
  simpl in Hr; inversion Hr; subst; clear Hr;
  first
    [ solve [cbv in Hs; discriminate Hs]
    | solve [exfalso; eapply Hnh; simpl; eauto]
    | simpl in Hk; inversion Hk; subst; clear Hk;
      eexists; split; [reflexivity |];
      cbv [bodyField body res_json getField String.eqb Ascii.eqb Bool.eqb
           length_of result_length resultValue rowsValue];
      rewrite ?length_map; reflexivity ].

(** C10, refuted as stated: [SELECT 1 INTO @a] passes the guard and is
    answered with an OK packet; the raw query then answers [success: true]
    with a [data] that is the driver's header object, not an array, and a
    [count] that is undefined. *)
Lemma select_into_has_no_count :
  startsWith (toLowerCase (trim "SELECT 1 INTO @a")) "select" = true
  /\ collectionKey (Query_ (VObj [("query", VStr "SELECT 1 INTO @a")]))
     = Some "data"
  /\ fst (run (handle okPacket
                 (Query_ (VObj [("query", VStr "SELECT 1 INTO @a")]))) tt)
     = inr (res_json [("success", VBool true);
                      ("count", VUndef);
                      ("data", VObj okHeader)]).
Proof. repeat split. Qed.

(** C10, as the code has it.  Whenever a handler that reports a [count]
    next to a collection answers with [success: true], and every statement
    of the request was answered with a result set (an array of rows, not
    an OK packet), the collection ([data], [tables] or [databases]) is an
    array and [count] is its length. *)
Theorem count_is_collection_length
    {DbState : Type} (exec : DbState -> Query -> DbOutcome * DbState)
    (e : Endpoint) (s : DbState) (key : string) (resp : Response) :
  collectionKey e = Some key ->
  fst (run (handle exec e) s) = inr resp ->
  bodyField "success" resp = VBool true ->
  (forall q h, ~ In (q, DbHeader h) (issued (snd (run (handle exec e) s)))) ->
  exists xs,
    bodyField key resp = VArr xs
    /\ bodyField "count" resp = VNum (Num (Z.of_nat (length xs))).
Proof.
  intros Hk Hr Hs Hnh.
  destruct e as [now | req_body | | t | t l o | l | l | l | l
                 | | d | d t l o | d t]; simpl handle in Hr, Hnh;
    try discriminate Hk;
    try (revert Hr Hnh; run_equation; split_exec; intros Hr Hnh;
         settle_count Hk Hr Hs Hnh).
  destruct (post_query_body_cases req_body) as [(fields & Q & -> & Hq) | Hno].
  - revert Hr Hnh. rewrite (run_post_query_text exec fields Q s Hq).
    destruct (startsWith (toLowerCase (trim Q)) "select");
      split_exec; intros Hr Hnh; settle_count Hk Hr Hs Hnh.
  - destruct (run_post_query_no_text exec req_body s Hno) as [m' Hm].
    rewrite Hm in Hr. settle_count Hk Hr Hs Hnh.
Qed.

(** Page two of the orders: the count is the page's length. *)
Lemma orders_page_count_matches :
  exists xs,
    bodyField "data"
      (tableDataEnvelope "orders" [orderRow 3; orderRow 4] (VNum (Num 5)))
    = VArr xs
    /\ bodyField "count"
         (tableDataEnvelope "orders" [orderRow 3; orderRow 4] (VNum (Num 5)))
       = VNum (Num (Z.of_nat (length xs))).
Proof.
  apply (count_is_collection_length (oneTable "orders")
           (TableData "orders" (VStr "2") (VStr "2")) (fiveOrders, 0%nat)
           "data");
    try reflexivity.
  intros q h Hin. cbv in Hin.
  destruct Hin as [Hin | [Hin | []]]; inversion Hin.
Defined.

(** ** The paged read *)




(** C9.  Take any set of database states in which the table is "unchanged":
    the two statements of the paged read keep the database inside the set
    and are answered alike everywhere in it.  Then two paged reads with the
    same database, table, limit and offset, started anywhere in the set,
    give the same response: same rows, same count, same total. *)
Theorem paged_read_is_repeatable
    {DbState : Type} (exec : DbState -> Query -> DbOutcome * DbState)
    (Unchanged : DbState -> Prop)
    (e : Endpoint) (target : string) (l o : JsVal) :
  pagedTarget e = Some (target, l, o) ->
  (forall s q, Unchanged s ->
               In q [pageQuery target l o; countQuery target] ->
               Unchanged (snd (exec s q))) ->
  (forall s s' q, Unchanged s -> Unchanged s' ->
                  In q [pageQuery target l o; countQuery target] ->
                  fst (exec s q) = fst (exec s' q)) ->
  forall s1 s2,
    Unchanged s1 -> Unchanged s2 ->
    fst (run (handle exec e) s1) = fst (run (handle exec e) s2).
Proof.
  intros He Hkeep Hsame s1 s2 U1 U2.
  assert (Hp := Hsame s1 s2 (pageQuery target l o) U1 U2 (or_introl eq_refl)).
  assert (U1' := Hkeep s1 (pageQuery target l o) U1 (or_introl eq_refl)).
  assert (U2' := Hkeep s2 (pageQuery target l o) U2 (or_introl eq_refl)).
  assert (Hc := Hsame _ _ (countQuery target) U1' U2'
                  (or_intror (or_introl eq_refl))).
  destruct e as [now | req_body | | t | t l' o' | l' | l' | l' | l'
                 | | d | d t l' o' | d t]; try discriminate He;
    simpl in He; injection He as <- <- <-; simpl handle.
  - rewrite !run_get_table_data.
    destruct (exec s1 (pageQuery t l' o')) as [oa a1].
    destruct (exec s2 (pageQuery t l' o')) as [ob a2].
    simpl in Hp, Hc. subst ob.
    destruct (settled oa) as [m | page]; [reflexivity |].
    destruct (exec a1 (countQuery t)) as [oc b1].
    destruct (exec a2 (countQuery t)) as [od b2].
    simpl in Hc. subst od. reflexivity.
  - rewrite !run_get_database_table_data.
    destruct (exec s1 (pageQuery (qualified d t) l' o')) as [oa a1].
    destruct (exec s2 (pageQuery (qualified d t) l' o')) as [ob a2].
    simpl in Hp, Hc. subst ob.
    destruct (settled oa) as [m | page]; [reflexivity |].
    destruct (exec a1 (countQuery (qualified d t))) as [oc b1].
    destruct (exec a2 (countQuery (qualified d t))) as [od b2].
    simpl in Hc. subst od. reflexivity.
Qed.

(** Two reads of the first page of the orders, seven statements apart. *)
Lemma orders_page_repeats :
  fst (run (handle (oneTable "orders")
              (TableData "orders" (VStr "2") (VStr "0"))) (fiveOrders, 0%nat))
  = fst (run (handle (oneTable "orders")
                (TableData "orders" (VStr "2") (VStr "0")))
             (fiveOrders, 7%nat)).
Proof.
  apply (paged_read_is_repeatable (oneTable "orders")
           (fun st => fst st = fiveOrders)
           (TableData "orders" (VStr "2") (VStr "0"))
           "orders" (VStr "2") (VStr "0")).
  - reflexivity.
  - intros [rows n] q Hrows _. exact Hrows.
  - intros [rows n] [rows' n'] q Hrows Hrows' _.
    simpl in Hrows, Hrows'. subst. reflexivity.
  - reflexivity.
  - reflexivity.
Defined.

(** ** The fixed-table shortcuts *)




(** * Further properties of the handlers *)

(** ** The shape of a request *)

Ltac settle_conj :=
  repeat match goal with
         | |- _ /\ _ => split
         | |- exists _, _ => eexists
         end;
  try reflexivity.

Ltac settle_response :=
  unfold okResponse, failResponse; simpl isHealth;
  settle_conj;
  first [solve [left; settle_conj] | solve [right; settle_conj]].

Ltac one_sent E :=
  eapply OneSent; [exact E | simpl; settle_response].

Ltac two_sent E1 E2 :=
  eapply TwoSent;
  [ discriminate | exact E1 | intros; discriminate | exact E2
  | simpl; settle_response ].

(** One statement: the three ways it can settle. *)
Ltac one_statement exec s :=
  let o := fresh "o" in
  let s1 := fresh "s" in
  let E := fresh "E" in
  destruct (exec s _) as [o s1] eqn:E;
  destruct o as [? | ? | ?]; simpl; one_sent E.

(** Two statements: the page, then the count. *)
Ltac two_statements exec s :=
  let o1 := fresh "o" in
  let s1 := fresh "s" in
  let E1 := fresh "E" in
  let o2 := fresh "o" in
  let s2 := fresh "s" in
  let E2 := fresh "E" in
  destruct (exec s _) as [o1 s1] eqn:E1;
  destruct o1 as [? | ? | ?]; simpl;
  [ destruct (exec s1 _) as [o2 s2] eqn:E2;
    destruct o2 as [[| ? ?] | ? | ?]; two_sent E1 E2
  | destruct (exec s1 _) as [o2 s2] eqn:E2;
    destruct o2 as [[| ? ?] | ? | ?]; two_sent E1 E2
  | one_sent E1 ].

(** Every request goes one of the three ways of [RunShape]. *)
Lemma handle_run_shape
    {DbState : Type} (exec : DbState -> Query -> DbOutcome * DbState)
    (e : Endpoint) (s : DbState) :
  RunShape exec e s (run (handle exec e) s).
Proof.
  destruct e as [now | req_body | | t | t l o | l | l | l | l
                 | | d | d t l o | d t]; simpl handle;
    try (run_equation;
         first [one_statement exec s | two_statements exec s]).
  destruct (post_query_body_cases req_body) as [(fields & Q & -> & Hq) | Hno].
  - rewrite (run_post_query_text exec fields Q s Hq).
    destruct (startsWith (toLowerCase (trim Q)) "select").
    + one_statement exec s.
    + apply (NothingSent exec _ s 400); [reflexivity | now left |].
      unfold failResponse; simpl isHealth; settle_conj.
  - destruct (run_post_query_no_text exec req_body s Hno) as [m ->].
    apply (NothingSent exec _ s 500); [reflexivity | now right |].
    unfold failResponse; simpl isHealth; settle_conj.
Qed.

(** X1.  No route sends more than two statements for a request, and only
    the paged reads send more than one. *)
Theorem statements_within_budget
    {DbState : Type} (exec : DbState -> Query -> DbOutcome * DbState)
    (e : Endpoint) (s : DbState) :
  (length (issued (snd (run (handle exec e) s))) <= statementBudget e)%nat.
Proof.
  destruct (handle_run_shape exec e s)
    as [code resp Hq Hc Hf | q o s1 resp E Ho
        | q1 q2 o1 o2 s1 s2 resp Hp E1 Hne E2 Ho]; simpl.
  - lia.
  - unfold statementBudget. destruct (pagedTarget e); lia.
  - unfold statementBudget. destruct (pagedTarget e); [lia | congruence].
Qed.

(** X2.  A statement that the database rejects is the last one of its
    request: nothing is sent after a failure. *)
Theorem rejected_statement_is_last
    {DbState : Type} (exec : DbState -> Query -> DbOutcome * DbState)
    (e : Endpoint) (s : DbState)
    (pre post : list (Query * DbOutcome)) (q : Query) (m : string) :
  issued (snd (run (handle exec e) s)) = (pre ++ (q, DbErr m) :: post)%list ->
  post = [].
Proof.
  destruct (handle_run_shape exec e s)
    as [code resp Hq Hc Hf | q0 o s1 resp E Ho
        | q1 q2 o1 o2 s1 s2 resp Hp E1 Hne E2 Ho]; simpl; intros H.
  - destruct pre; discriminate H.
  - destruct pre as [| x pre]; simpl in H.
    + inversion H. reflexivity.
    + destruct pre; discriminate H.
  - destruct pre as [| x pre]; simpl in H.
    + inversion H; subst. exfalso. exact (Hne m eq_refl).
    + destruct pre as [| y pre]; simpl in H.
      * inversion H. reflexivity.
      * destruct pre; discriminate H.
Qed.

(** The page statement of a paged read fails: the count statement is not
    sent. *)
Lemma no_count_after_failed_page :
  issued (snd (run (handle unreachable (TableData "deal" VUndef VUndef)) tt))
  = ([] ++ (pageQuery "deal" VUndef VUndef,
            DbErr "connect ECONNREFUSED 127.0.0.1:3306") :: [])%list
  /\ @nil (Query * DbOutcome) = [].
Proof.
  split; [reflexivity |].
  exact (rejected_statement_is_last unreachable
           (TableData "deal" VUndef VUndef) tt []
           [] (pageQuery "deal" VUndef VUndef)
           "connect ECONNREFUSED 127.0.0.1:3306" eq_refl).
Defined.

(** X3.  For the routes that reach the pool (every route but the static
    [GET /]), the status code tells the outcome.  The response has status
    200, 400 or 500.  Status 200 goes with the route's success mark
    ([success: true], or [status: 'ok'] for the health check), with the
    absence of an [error] key, and with at least one statement sent and
    none rejected.  Status 400 comes from POST /query alone and means that
    nothing was sent. *)
Theorem status_tells_outcome
    {DbState : Type} (exec : DbState -> Query -> DbOutcome * DbState)
    (e : Endpoint) (s : DbState) :
  exists resp,
    fst (run (handle exec e) s) = inr resp
    /\ (status resp = 200 \/ status resp = 400 \/ status resp = 500)
    /\ (status resp = 200 <->
        if isHealth e then bodyField "status" resp = VStr "ok"
        else bodyField "success" resp = VBool true)
    /\ (status resp = 200 <-> hasBodyField "error" resp = false)
    /\ (status resp = 200 ->
        issued (snd (run (handle exec e) s)) <> []
        /\ forall q o m, In (q, o) (issued (snd (run (handle exec e) s))) ->
                         o <> DbErr m)
    /\ (status resp = 400 ->
        isQuery e = true /\ issued (snd (run (handle exec e) s)) = []).
Proof.
  assert (Hfail : forall code resp,
             failResponse e code resp -> code <> 200 ->
             (status resp = 200 \/ status resp = 400 \/ status resp = 500 ->
              status resp = code)
             /\ (status resp = 200 <->
                 if isHealth e then bodyField "status" resp = VStr "ok"
                 else bodyField "success" resp = VBool true)
             /\ (status resp = 200 <-> hasBodyField "error" resp = false)
             /\ status resp <> 200).
  { intros code resp (Hs & _ & He & Hm) Hc.
    split; [intros _; exact Hs |].
    split; [| split; [| congruence]]; split; intros H.
    - congruence.
    - destruct (isHealth e); rewrite Hm in H; discriminate H.
    - congruence.
    - rewrite He in H. discriminate H. }
  assert (Hok : forall resp,
             okResponse e resp ->
             status resp = 200
             /\ (status resp = 200 <->
                 if isHealth e then bodyField "status" resp = VStr "ok"
                 else bodyField "success" resp = VBool true)
             /\ (status resp = 200 <-> hasBodyField "error" resp = false)).
  { intros resp (Hs & He & Hm). split; [exact Hs |].
    split; split; intros H; assumption. }
  assert (Hcase : forall resp,
             okResponse e resp \/ failResponse e 500 resp ->
             (status resp = 200 \/ status resp = 400 \/ status resp = 500)
             /\ (status resp = 200 <->
                 if isHealth e then bodyField "status" resp = VStr "ok"
                 else bodyField "success" resp = VBool true)
             /\ (status resp = 200 <-> hasBodyField "error" resp = false)
             /\ status resp <> 400).
  { intros resp [H | H].
    - destruct (Hok resp H) as (Hs & H1 & H2).
      split; [now left |]. split; [exact H1 |]. split; [exact H2 |].
      rewrite Hs. discriminate.
    - destruct (Hfail 500 resp H ltac:(discriminate)) as (_ & H1 & H2 & _).
      destruct H as (Hs & _).
      split; [now right; right |]. split; [exact H1 |]. split; [exact H2 |].
      rewrite Hs. discriminate. }
  destruct (handle_run_shape exec e s)
    as [code resp Hq Hc Hf | q o s1 resp E Ho
        | q1 q2 o1 o2 s1 s2 resp Hp E1 Hne E2 Ho]; simpl;
    exists resp; (split; [reflexivity |]).
  - assert (Hne : code <> 200) by (destruct Hc; subst; discriminate).
    destruct (Hfail code resp Hf Hne) as (_ & H1 & H2 & H3).
    destruct Hf as (Hs & _).
    split; [destruct Hc; subst; rewrite Hs; auto |].
    split; [exact H1 |]. split; [exact H2 |].
    split; [intros H; congruence |].
    intros _. split; [exact Hq | reflexivity].
  - assert (Hresp : (okResponse e resp \/ failResponse e 500 resp)
                    /\ (status resp = 200 -> forall m, o <> DbErr m)).
    { destruct o as [rows | h | m].
      - split; [left; tauto | intros _ m; discriminate].
      - split; [tauto | intros _ m; discriminate].
      - destruct Ho as [Ho _]. split; [now right |].
        intros H. destruct Ho as (Hs & _). rewrite Hs in H. discriminate H. }
    destruct Hresp as [Hresp Hrej].
    destruct (Hcase resp Hresp) as (H0 & H1 & H2 & H3).
    split; [exact H0 |]. split; [exact H1 |]. split; [exact H2 |].
    split.
    + intros H. split; [discriminate |].
      intros q' o' m [Hin | []]. injection Hin as _ <-. exact (Hrej H m).
    + intros H. contradiction.
  - assert (Hresp : (okResponse e resp \/ failResponse e 500 resp)
                    /\ (status resp = 200 -> forall m, o2 <> DbErr m)).
    { destruct o2 as [[| c0 cs] | h | m].
      - split; [now right | intros _ m; discriminate].
      - split; [now left | intros _ m; discriminate].
      - split; [now right | intros _ m; discriminate].
      - destruct Ho as [Ho _]. split; [now right |].
        intros H. destruct Ho as (Hs & _). rewrite Hs in H. discriminate H. }
    destruct Hresp as [Hresp Hrej].
    destruct (Hcase resp Hresp) as (H0 & H1 & H2 & H3).
    split; [exact H0 |]. split; [exact H1 |]. split; [exact H2 |].
    split.
    + intros H. split; [discriminate |].
      intros q' o' m [Hin | [Hin | []]]; injection Hin as _ <-.
      * exact (Hne m).
      * exact (Hrej H m).
    + intros H. contradiction.
Qed.

(** The first page of the orders: success mark, hence status 200. *)
Lemma orders_page_status :
  exists resp,
    fst (run (handle (oneTable "orders")
                (TableData "orders" (VStr "2") (VStr "0")))
             (fiveOrders, 0%nat)) = inr resp
    /\ bodyField "success" resp = VBool true
    /\ status resp = 200.
Proof.
  destruct (status_tells_outcome (oneTable "orders")
              (TableData "orders" (VStr "2") (VStr "0")) (fiveOrders, 0%nat))
    as (resp & Hr & _ & Hiff & _).
  exists resp. split; [exact Hr |].
  assert (Hs : bodyField "success" resp = VBool true).
  { cbv in Hr. injection Hr as <-. reflexivity. }
  split; [exact Hs | exact (proj2 Hiff Hs)].
Defined.

(** ** The read-only guard, character by character *)

Lemma trimStart_white (ws s : string) :
  allWhiteSpace ws = true -> trimStart (ws ++ s) = trimStart s.
Proof.
  induction ws as [| c ws IH]; intros H; [reflexivity |].
  unfold allWhiteSpace in H. simpl in H.
  apply andb_true_iff in H. destruct H as [Hc Hws].
  simpl. rewrite Hc. exact (IH Hws).
Qed.

(** A string is some white space followed by its [trimStart], which is
    empty or opens with a character that is not white space. *)
Lemma trimStart_split (s : string) :
  exists ws,
    s = ws ++ trimStart s
    /\ allWhiteSpace ws = true
    /\ (trimStart s = ""
        \/ exists c r, trimStart s = String c r /\ isWhiteSpace c = false).
Proof.
  induction s as [| c s (ws & Hs & Hws & Hhead)].
  - exists "". repeat split. now left.
  - simpl. destruct (isWhiteSpace c) eqn:Hc.
    + exists (String c ws). split; [simpl; congruence |].
      split; [| exact Hhead].
      unfold allWhiteSpace. simpl. rewrite Hc. exact Hws.
    + exists "". repeat split. right. now exists c, s.
Qed.

Lemma trimEnd_keeps_head (c : ascii) (r : string) :
  isWhiteSpace c = false \/ trimEnd r <> "" ->
  trimEnd (String c r) = String c (trimEnd r).
Proof.
  intros H. simpl. destruct (trimEnd r) as [| d t] eqn:E; [| reflexivity].
  destruct H as [H | H]; [rewrite H; reflexivity | congruence].
Qed.

Lemma trimEnd_white (s : string) :
  allWhiteSpace s = true -> trimEnd s = "".
Proof.
  induction s as [| c s IH]; intros H; [reflexivity |].
  unfold allWhiteSpace in H. simpl in H.
  apply andb_true_iff in H. destruct H as [Hc Hs].
  simpl. rewrite (IH Hs), Hc. reflexivity.
Qed.

(** A string is its [trimEnd] followed by white space. *)
Lemma trimEnd_split (s : string) :
  exists ws, s = trimEnd s ++ ws /\ allWhiteSpace ws = true.
Proof.
  induction s as [| c s (ws & Hs & Hws)].
  - exists "". split; reflexivity.
  - simpl. destruct (trimEnd s) as [| d t] eqn:E.
    + simpl in Hs. subst ws.
      destruct (isWhiteSpace c) eqn:Hc.
      * exists (String c s). split; [reflexivity |].
        unfold allWhiteSpace. simpl. rewrite Hc. exact Hws.
      * exists s. split; [reflexivity | exact Hws].
    + exists ws. split; [| exact Hws].
      simpl in Hs |- *. f_equal. exact Hs.
Qed.

Lemma trimEnd_after_white (ws : string) (c : ascii) (r : string) :
  isWhiteSpace c = false ->
  trimEnd (ws ++ String c r) = ws ++ String c (trimEnd r).
Proof.
  intros Hc. induction ws as [| w ws IH].
  - simpl append. apply trimEnd_keeps_head. now left.
  - change (String w ws ++ String c r) with (String w (ws ++ String c r)).
    rewrite trimEnd_keeps_head; [rewrite IH; reflexivity |].
    right. rewrite IH. destruct ws; discriminate.
Qed.

Lemma trimEnd_keeps_word (kw rest : string) :
  noWhiteSpace kw = true -> trimEnd (kw ++ rest) = kw ++ trimEnd rest.
Proof.
  induction kw as [| c kw IH]; intros H; [reflexivity |].
  unfold noWhiteSpace in H. simpl in H.
  apply andb_true_iff in H. destruct H as [Hc Hkw].
  apply negb_true_iff in Hc.
  change (String c kw ++ rest) with (String c (kw ++ rest)).
  rewrite trimEnd_keeps_head by now left.
  rewrite (IH Hkw). reflexivity.
Qed.

(** Lower-casing never turns white space into anything else. *)
Lemma lowerChar_white (c : ascii) :
  isWhiteSpace c = true -> isWhiteSpace (lowerChar c) = true.
Proof.
  destruct c as [b0 b1 b2 b3 b4 b5 b6 b7].
  destruct b0, b1, b2, b3, b4, b5, b6, b7; cbv; intros H;
    try discriminate H; reflexivity.
Qed.

Lemma noWhiteSpace_toLowerCase (s : string) :
  noWhiteSpace (toLowerCase s) = true -> noWhiteSpace s = true.
Proof.
  unfold noWhiteSpace. induction s as [| c s IH]; intros H; [reflexivity |].
  simpl in H. apply andb_true_iff in H. destruct H as [Hc Hs].
  simpl. rewrite (IH Hs), andb_true_r.
  destruct (isWhiteSpace c) eqn:E; [| reflexivity].
  rewrite (lowerChar_white c E) in Hc. discriminate Hc.
Qed.

Lemma toLowerCase_append (s t : string) :
  toLowerCase (s ++ t) = toLowerCase s ++ toLowerCase t.
Proof.
  induction s as [| c s IH]; simpl; [reflexivity | now rewrite IH].
Qed.

Lemma startsWith_append (p t : string) : startsWith (p ++ t) p = true.
Proof.
  induction p as [| c p IH]; [simpl; destruct t; reflexivity |].
  simpl. rewrite Ascii.eqb_refl. exact IH.
Qed.

(** A lower-cased string starts with [p] exactly when the string opens
    with a word that lower-cases to [p]. *)
Lemma startsWith_toLowerCase (p T : string) :
  startsWith (toLowerCase T) p = true ->
  exists kw rest, T = kw ++ rest /\ toLowerCase kw = p.
Proof.
  revert T. induction p as [| c p IH]; intros T H.
  - exists "", T. split; reflexivity.
  - destruct T as [| d T]; [discriminate H |].
    simpl in H. apply andb_true_iff in H. destruct H as [Hc Hp].
    apply Ascii.eqb_eq in Hc.
    destruct (IH T Hp) as (kw & rest & -> & Hkw).
    exists (String d kw), rest. split; [reflexivity |].
    simpl. congruence.
Qed.

Lemma append_assoc (a b c : string) : (a ++ b) ++ c = a ++ b ++ c.
Proof.
  induction a as [| x a IH]; simpl; [reflexivity | now rewrite IH].
Qed.

(** The guard, spelled out. *)
Lemma guard_iff (Q : string) :
  startsWith (toLowerCase (trim Q)) "select" = true
  <-> exists ws kw rest,
        Q = ws ++ kw ++ rest
        /\ allWhiteSpace ws = true
        /\ toLowerCase kw = "select".
Proof.
  split.
  - intros H.
    destruct (trimStart_split Q) as (ws & HQ & Hws & Hhead).
    destruct Hhead as [He | (c & r & Hcr & Hc)].
    + exfalso. rewrite He in HQ.
      assert (HQw : allWhiteSpace Q = true).
      { rewrite HQ. clear -Hws. induction ws as [| w ws IH];
          [reflexivity |].
        unfold allWhiteSpace in *. simpl in *.
        apply andb_true_iff in Hws. destruct Hws as [Hw Hws].
        rewrite Hw. exact (IH Hws). }
      unfold trim in H. rewrite (trimEnd_white Q HQw) in H. discriminate H.
    + assert (Ht : trim Q = String c (trimEnd r)).
      { unfold trim. rewrite HQ, Hcr.
        rewrite (trimEnd_after_white ws c r Hc).
        rewrite (trimStart_white ws _ Hws). simpl. rewrite Hc. reflexivity. }
      rewrite Ht in H.
      destruct (startsWith_toLowerCase _ _ H) as (kw & rest & Hk & Hkw).
      destruct (trimEnd_split r) as (ws' & Hr & _).
      exists ws, kw, (rest ++ ws'). split; [| split; assumption].
      rewrite HQ, Hcr. f_equal.
      rewrite <- append_assoc, <- Hk. simpl. congruence.
  - intros (ws & kw & rest & -> & Hws & Hkw).
    assert (Hnw : noWhiteSpace kw = true).
    { apply noWhiteSpace_toLowerCase. rewrite Hkw. reflexivity. }
    destruct kw as [| c kw]; [discriminate Hkw |].
    assert (Hc : isWhiteSpace c = false).
    { unfold noWhiteSpace in Hnw. simpl in Hnw.
      apply andb_true_iff in Hnw. destruct Hnw as [Hc _].
      now apply negb_true_iff in Hc. }
    unfold trim.
    change (String c kw ++ rest) with (String c (kw ++ rest)).
    rewrite (trimEnd_after_white ws c (kw ++ rest) Hc).
    rewrite (trimStart_white ws _ Hws). simpl trimStart. rewrite Hc.
    assert (Hkw' : noWhiteSpace kw = true).
    { unfold noWhiteSpace in Hnw. simpl in Hnw.
      apply andb_true_iff in Hnw. tauto. }
    rewrite (trimEnd_keeps_word kw rest Hkw').
    change (String c (kw ++ trimEnd rest))
      with (String c kw ++ trimEnd rest).
    rewrite toLowerCase_append, Hkw.
    apply startsWith_append.
Qed.

(** X4.  POST /query sends the text, whole, exactly when the text is some
    white space, then a word that lower-cases to [select], then anything
    at all; otherwise it sends nothing.  The test looks at the opening
    word only: what follows it is not inspected. *)
Theorem query_is_sent_iff_it_opens_with_select
    {DbState : Type} (exec : DbState -> Query -> DbOutcome * DbState)
    (s : DbState) (Q : string) :
  (statements (run (post_query exec (VObj [("query", VStr Q)])) s)
   = [mkQuery Q None]
   <-> exists ws kw rest,
         Q = ws ++ kw ++ rest
         /\ allWhiteSpace ws = true
         /\ toLowerCase kw = "select")
  /\ (statements (run (post_query exec (VObj [("query", VStr Q)])) s)
      = [mkQuery Q None]
      \/ statements (run (post_query exec (VObj [("query", VStr Q)])) s)
         = []).
Proof.
  unfold statements.
  rewrite (run_post_query_text exec [("query", VStr Q)] Q s eq_refl).
  destruct (startsWith (toLowerCase (trim Q)) "select") eqn:G.
  - destruct (exec s (mkQuery Q None)) as [out s1]. simpl.
    split; [| now left].
    split; [intros _; apply guard_iff; exact G | reflexivity].
  - simpl. split; [| now right].
    split; [discriminate |].
    intros H. apply guard_iff in H. congruence.
Qed.

(** A statement stacked behind a SELECT goes through with it. *)
Lemma stacked_statement_is_sent :
  statements
    (run (post_query unreachable
            (VObj [("query", VStr "  Select 1; DROP TABLE deal")])) tt)
  = [mkQuery "  Select 1; DROP TABLE deal" None].
Proof.
  apply (proj2 (proj1 (query_is_sent_iff_it_opens_with_select unreachable tt
                         "  Select 1; DROP TABLE deal"))).
  exists "  ", "Select", " 1; DROP TABLE deal".
  repeat split.
Defined.

(** X5.  A body whose [query] is not a string (absent, null, a number, an
    array, an object), or no body at all, is answered with status 500 and
    [success: false]; nothing is sent and the database is untouched. *)
Theorem query_without_string_text_answers_500
    {DbState : Type} (exec : DbState -> Query -> DbOutcome * DbState)
    (s : DbState) (req_body : JsVal) :
  (forall fields Q, req_body = VObj fields ->
                    getField "query" fields <> VStr Q) ->
  exists m,
    run (post_query exec req_body) s
    = (inr (res_status_json 500
              [("success", VBool false); ("error", VStr m)]),
       mkWorld s []).
Proof.
  intros Hno. exact (run_post_query_no_text exec req_body s Hno).
Qed.

(** A number where the text should be. *)
Lemma numeric_query_answers_500 :
  exists m,
    run (post_query (oneTable "orders") (VObj [("query", VNum (Num 5))]))
        (fiveOrders, 0%nat)
    = (inr (res_status_json 500
              [("success", VBool false); ("error", VStr m)]),
       mkWorld (fiveOrders, 0%nat) []).
Proof.
  apply (query_without_string_text_answers_500 (oneTable "orders")
           (fiveOrders, 0%nat) (VObj [("query", VNum (Num 5))])).
  intros fields Q H. injection H as <-. simpl. discriminate.
Defined.

(** ** Edges of the paged read *)



(** ** Listings *)

Lemma first_columns (cells : list (string * JsVal)) :
  map (fun row : Row => index0 (Object_values row))
      (map (fun cell => [cell]) cells)
  = map snd cells.
Proof.
  induction cells as [| [k v] cells IH]; simpl; [reflexivity | now rewrite IH].
Qed.

(** X7.  When the database answers a listing with one-column rows, the
    names come back in the database's order whatever each column is
    called, and [count] is their number.  This holds of the tables of the
    single-database service, of the tables of a named database and of the
    databases. *)
Theorem listings_return_first_column
    {DbState : Type} (exec : DbState -> Query -> DbOutcome * DbState)
    (s s1 : DbState) (dbName : string) (cells : list (string * JsVal)) :
  let rows := map (fun cell => [cell]) cells in
  (exec s (mkQuery "SHOW TABLES" None) = (DbOk rows, s1) ->
   fst (run (get_tables exec) s)
   = inr (res_json [("success", VBool true);
                    ("count", VNum (Num (Z.of_nat (length cells))));
                    ("tables", VArr (map snd cells))]))
  /\ (exec s (mkQuery ("SHOW TABLES FROM `" ++ dbName ++ "`") None)
      = (DbOk rows, s1) ->
      fst (run (get_database_tables exec dbName) s)
      = inr (res_json [("success", VBool true);
                       ("database", VStr dbName);
                       ("count", VNum (Num (Z.of_nat (length cells))));
                       ("tables", VArr (map snd cells))]))
  /\ (exec s (mkQuery "SHOW DATABASES" None) = (DbOk rows, s1) ->
      fst (run (get_databases exec) s)
      = inr (res_json [("success", VBool true);
                       ("count", VNum (Num (Z.of_nat (length cells))));
                       ("databases", VArr (map snd cells))])).
Proof.
  intros rows. subst rows.
  split; [| split]; intros E.
  - unfold get_tables. rewrite run_listing, E. simpl.
    unfold length_of. rewrite first_columns, !length_map. reflexivity.
  - unfold get_database_tables. rewrite run_listing, E. simpl.
    unfold length_of. rewrite first_columns, !length_map. reflexivity.
  - unfold get_databases. rewrite run_listing, E. simpl.
    unfold length_of. rewrite first_columns, !length_map. reflexivity.
Qed.

(** Two tables of the database [crm]. *)
Lemma crm_tables_listed :
  fst (run (get_tables
              (fun (s : unit) (_ : Query) =>
                 (DbOk [[("Tables_in_crm", VStr "deal")];
                        [("Tables_in_crm", VStr "lead")]], s))) tt)
  = inr (res_json [("success", VBool true);
                   ("count", VNum (Num 2));
                   ("tables", VArr [VStr "deal"; VStr "lead"])]).
Proof.
  exact (proj1 (listings_return_first_column
                  (fun (s : unit) (_ : Query) =>
                     (DbOk [[("Tables_in_crm", VStr "deal")];
                            [("Tables_in_crm", VStr "lead")]], s))
                  tt tt "crm"
                  [("Tables_in_crm", VStr "deal");
                   ("Tables_in_crm", VStr "lead")])
           eq_refl).
Defined.

(** ** Statement text that the request cannot reach *)





(** ** The two services side by side *)

(** X10.  On a server that answers a statement about [`db`.`table`] as it
    answers the same statement about the bare table (the database being
    the connection's default one), the multi-database handlers answer
    what the single-database handlers answer, with one more key,
    [database], and leave the database in the same state: for the paged
    read, the structure and the list of tables. *)
Theorem multi_database_routes_extend_single
    {DbState : Type} (exec : DbState -> Query -> DbOutcome * DbState)
    (s : DbState) (dbName tableName : string) (l o : JsVal) :
  (forall s', exec s' (pageQuery (qualified dbName tableName) l o)
              = exec s' (pageQuery tableName l o)) ->
  (forall s', exec s' (countQuery (qualified dbName tableName))
              = exec s' (countQuery tableName)) ->
  (forall s', exec s' (mkQuery ("DESCRIBE " ++ qualified dbName tableName) None)
              = exec s' (mkQuery ("DESCRIBE " ++ tableName) None)) ->
  (forall s', exec s' (mkQuery ("SHOW TABLES FROM `" ++ dbName ++ "`") None)
              = exec s' (mkQuery "SHOW TABLES" None)) ->
  (fst (run (get_table_data exec tableName l o) s)
   = withoutDatabase
       (fst (run (get_database_table_data exec dbName tableName l o) s))
   /\ dbState (snd (run (get_table_data exec tableName l o) s))
      = dbState
          (snd (run (get_database_table_data exec dbName tableName l o) s)))
  /\ (fst (run (get_table_structure exec tableName) s)
      = withoutDatabase
          (fst (run (get_database_table_structure exec dbName tableName) s))
      /\ dbState (snd (run (get_table_structure exec tableName) s))
         = dbState
             (snd (run (get_database_table_structure exec dbName tableName)
                       s)))
  /\ (fst (run (get_tables exec) s)
      = withoutDatabase (fst (run (get_database_tables exec dbName) s))
      /\ dbState (snd (run (get_tables exec) s))
         = dbState (snd (run (get_database_tables exec dbName) s))).
Proof.
  intros Hpage Hcount Hdesc Hshow.
  split; [| split].
  - rewrite run_get_table_data, run_get_database_table_data, Hpage.
    destruct (exec s (pageQuery tableName l o)) as [o1 s1].
    destruct o1 as [rows | h | m]; simpl; [| | split; reflexivity];
      rewrite Hcount;
      destruct (exec s1 (countQuery tableName)) as [o2 s2];
      destruct o2 as [[| c0 cs] | h2 | m2]; split; reflexivity.
  - unfold get_table_structure, get_database_table_structure.
    rewrite !run_single_statement, Hdesc.
    destruct (exec s _) as [out s1].
    destruct out as [rows | h | m]; split; reflexivity.
  - unfold get_tables, get_database_tables.
    rewrite !run_listing, Hshow.
    destruct (exec s _) as [out s1].
    destruct out as [rows | h | m]; split; reflexivity.
Qed.

(** The orders table, reached bare and through its database [shop]. *)
Lemma shop_orders_both_ways :
  fst (run (get_table_data (inDatabase "shop" "orders") "orders"
              (VStr "2") (VStr "1")) (fiveOrders, 0%nat))
  = withoutDatabase
      (fst (run (get_database_table_data (inDatabase "shop" "orders")
                   "shop" "orders" (VStr "2") (VStr "1"))
                (fiveOrders, 0%nat)))
  /\ fst (run (get_database_table_data (inDatabase "shop" "orders")
                 "shop" "orders" (VStr "2") (VStr "1")) (fiveOrders, 0%nat))
     = inr (res_json [("success", VBool true);
                      ("database", VStr "shop");
                      ("table", VStr "orders");
                      ("total", VNum (Num 5));
                      ("count", VNum (Num 2));
                      ("data", VArr [VObj (orderRow 2); VObj (orderRow 3)])]).
Proof.
  split; [| reflexivity].
  apply (proj1 (multi_database_routes_extend_single
                  (inDatabase "shop" "orders") (fiveOrders, 0%nat)
                  "shop" "orders" (VStr "2") (VStr "1")
                  (fun _ => eq_refl) (fun _ => eq_refl)
                  (fun _ => eq_refl) (fun _ => eq_refl))).
Defined.

(** ** Qualified names *)

Lemma backtick_free_prefix (d d' x y : string) :
  noBacktick d = true -> noBacktick d' = true ->
  d ++ String "`" x = d' ++ String "`" y ->
  d = d' /\ x = y.
Proof.
  revert d'. induction d as [| c d IH]; intros [| c' d'] Hd Hd' H;
    simpl in H.
  - injection H as ->. split; reflexivity.
  - injection H as <- _. discriminate Hd'.
  - injection H as -> _. discriminate Hd.
  - injection H as -> H.
    unfold noBacktick in Hd, Hd'. simpl in Hd, Hd'.
    apply andb_true_iff in Hd, Hd'.
    destruct (IH d' (proj2 Hd) (proj2 Hd') H) as [-> ->].
    split; reflexivity.
Qed.

Lemma append_backtick_cancel (t t' : string) :
  t ++ "`" = t' ++ "`" -> t = t'.
Proof.
  revert t'. induction t as [| c t IH]; intros [| c' t'] H; simpl in H.
  - reflexivity.
  - injection H as _ H. destruct t'; discriminate H.
  - injection H as _ H. destruct t; discriminate H.
  - injection H as -> H. now rewrite (IH t' H).
Qed.

(** X11.  With database names free of backticks, the qualified reference
    determines the database and the table: two requests are written to
    the same reference only if they name the same database and the same
    table. *)
Theorem qualified_names_are_unambiguous
    (dbName dbName' tableName tableName' : string) :
  noBacktick dbName = true ->
  noBacktick dbName' = true ->
  qualified dbName tableName = qualified dbName' tableName' ->
  dbName = dbName' /\ tableName = tableName'.
Proof.
  intros Hd Hd' H. unfold qualified in H. simpl in H.
  injection H as H.
  destruct (backtick_free_prefix _ _ _ _ Hd Hd' H) as [-> H'].
  split; [reflexivity |].
  injection H' as H'. exact (append_backtick_cancel _ _ H').
Qed.

Lemma shop_orders_reference_is_unambiguous :
  "shop" = "shop" /\ "orders" = "orders".
Proof.
  exact (qualified_names_are_unambiguous "shop" "shop" "orders" "orders"
           eq_refl eq_refl eq_refl).
Defined.

(** A backtick in the database name lifts the guarantee: two different
    pairs are written to one reference. *)
Example backtick_makes_reference_ambiguous :
  qualified "a`.`b" "c" = qualified "a" "b`.`c".
Proof. reflexivity. Qed.

(** ** More inputs to the limit *)

Lemma paged_read_first_statement
    {DbState : Type} (exec : DbState -> Query -> DbOutcome * DbState)
    (e : Endpoint) (target : string) (l o : JsVal) (s : DbState) :
  pagedTarget e = Some (target, l, o) ->
  hd_error (statements (run (handle exec e) s)) = Some (pageQuery target l o).
Proof.
  intros He. unfold statements.
  destruct e as [now | req_body | | t | t l' o' | l' | l' | l' | l'
                 | | d | d t l' o' | d t]; try discriminate He;
    simpl in He; injection He as <- <- <-; simpl handle;
    run_equation; split_exec; reflexivity.
Qed.





Lemma radixDigit_hex (c : ascii) :
  isHexDigit c = true -> radixDigit 16 c = Some (hexDigitValue c).
Proof.
  unfold isHexDigit, hexDigitValue.
  destruct (radixDigit 16 c); [reflexivity | discriminate].
Qed.

Lemma parseDigits_hex_run (hs t : string) (a : Z) :
  allHexDigits hs = true ->
  parseDigits 16 (hs ++ t) (Some a)
  = parseDigits 16 t
      (Some (fold_left (fun acc c => 16 * acc + hexDigitValue c)
                       (list_ascii_of_string hs) a)).
Proof.
  revert a. induction hs as [| c hs IH]; intros a H; [reflexivity |].
  unfold allHexDigits in H. simpl in H.
  apply andb_true_iff in H. destruct H as [Hc Hhs].
  simpl. rewrite (radixDigit_hex c Hc).
  rewrite IH by exact Hhs. reflexivity.
Qed.

Lemma parseDigits_hex_stop (t : string) (acc : option Z) :
  endsHexNumeral t = true -> parseDigits 16 t acc = acc.
Proof.
  destruct t as [| c r]; intros H; [reflexivity |].
  simpl in H. apply negb_true_iff in H.
  simpl. unfold isHexDigit in H.
  destruct (radixDigit 16 c); [discriminate H | reflexivity].
Qed.

Lemma parseInt_string_hex (sg : Sign) (upper : bool) (hs t : string) :
  hs <> "" ->
  allHexDigits hs = true ->
  endsHexNumeral t = true ->
  parseInt_string
    (signText sg ++ (if upper then "0X" else "0x") ++ hs ++ t)
  = toNumber (signFactor sg * hexValue hs).
Proof.
  intros Hne Hhs Ht.
  apply (parseInt_string_steps _
           ((if upper then "0X" else "0x") ++ hs ++ t) (hs ++ t)
           (signFactor sg) 16 (hexValue hs)).
  - destruct sg, upper; reflexivity.
  - destruct upper; reflexivity.
  - destruct hs as [| c hs]; [congruence |].
    unfold allHexDigits in Hhs. simpl in Hhs.
    apply andb_true_iff in Hhs. destruct Hhs as [Hc Hhs].
    simpl. rewrite (radixDigit_hex c Hc).
    rewrite (parseDigits_hex_run hs t _ Hhs).
    rewrite (parseDigits_hex_stop t _ Ht).
    reflexivity.
Qed.

(** X13.  A limit or offset written with a [0x] or [0X] prefix is read as
    a hexadecimal numeral by the paged read: the value bound is the double
    nearest to the integer the digits write, which is that integer itself
    up to magnitude 2^53. *)
Theorem hexadecimal_limit_is_accepted
    {DbState : Type} (exec : DbState -> Query -> DbOutcome * DbState)
    (e : Endpoint) (target : string) (l o : JsVal) (s : DbState)
    (sg sg' : Sign) (upper upper' : bool) (hs hs' t t' : string) :
  pagedTarget e = Some (target, l, o) ->
  l = VStr (signText sg ++ (if upper then "0X" else "0x") ++ hs ++ t) ->
  o = VStr (signText sg' ++ (if upper' then "0X" else "0x") ++ hs' ++ t') ->
  hs <> "" -> allHexDigits hs = true -> endsHexNumeral t = true ->
  hs' <> "" -> allHexDigits hs' = true -> endsHexNumeral t' = true ->
  hd_error (statements (run (handle exec e) s))
  = Some (mkQuery ("SELECT * FROM " ++ target ++ " LIMIT ? OFFSET ?")
            (Some [VNum (toNumber (signFactor sg * hexValue hs));
                   VNum (toNumber (signFactor sg' * hexValue hs'))]))
  /\ (Z.abs (signFactor sg * hexValue hs) <= 2 ^ 53 ->
      toNumber (signFactor sg * hexValue hs)
      = Num (signFactor sg * hexValue hs))
  /\ (Z.abs (signFactor sg' * hexValue hs') <= 2 ^ 53 ->
      toNumber (signFactor sg' * hexValue hs')
      = Num (signFactor sg' * hexValue hs')).
Proof.
  intros He -> -> Hne Hhs Ht Hne' Hhs' Ht'.
  split; [| split; apply toNumber_exact].
  rewrite (paged_read_first_statement exec e target _ _ s He).
  unfold pageQuery.
  assert (Htruthy : forall (g : Sign) (u : bool) (h r : string) (d : JsVal),
             js_or (VStr (signText g ++ (if u then "0X" else "0x") ++ h ++ r)) d
             = VStr (signText g ++ (if u then "0X" else "0x") ++ h ++ r)).
  { intros g u h r d. destruct g, u; reflexivity. }
  rewrite !Htruthy. unfold parseInt, ToString.
  rewrite (parseInt_string_hex sg upper hs t Hne Hhs Ht).
  rewrite (parseInt_string_hex sg' upper' hs' t' Hne' Hhs' Ht').
  reflexivity.
Qed.

(** [?limit=0x10&offset=0XA] reads sixteen rows after the tenth. *)
Lemma hexadecimal_page :
  hd_error
    (statements
       (run (handle unreachable
               (DatabaseTableData "shop" "orders" (VStr "0x10") (VStr "0XA")))
            tt))
  = Some (mkQuery "SELECT * FROM `shop`.`orders` LIMIT ? OFFSET ?"
            (Some [VNum (Num 16); VNum (Num 10)])).
Proof.
  exact (proj1 (hexadecimal_limit_is_accepted unreachable
                  (DatabaseTableData "shop" "orders"
                     (VStr "0x10") (VStr "0XA"))
                  "`shop`.`orders`" (VStr "0x10") (VStr "0XA") tt
                  NoSign NoSign false true "10" "A" "" ""
                  eq_refl eq_refl eq_refl
                  ltac:(discriminate) eq_refl eq_refl
                  ltac:(discriminate) eq_refl eq_refl)).
Defined.
